(** * oae-bbb: the BigBlueButton proxy, the join-URL signer and the
      meeting search hooks, embedded in Rocq.

    The three source files are JavaScript.  Values are modelled by the
    inductive [value]; an object is the association list of its own
    properties in insertion order ([for ... in] enumerates them with the
    array-index keys first, see [JS.for_in]); numbers are IEEE-754 binary64, the primitive
    [float]; a string is a sequence of code units. *)

From Stdlib Require Import List String Ascii Bool Arith NArith Lia PrimFloat.
From Equations Require Import Equations.
Import ListNotations.
Local Open Scope list_scope.
Local Open Scope string_scope.

Set Warnings "-register-all".

(** ** JavaScript values and operators *)

Inductive value : Type :=
| VUndefined
| VNull
| VBool (b : bool)
| VNum (n : float)
| VStr (s : string)
| VArr (elems : list value)
| VObj (fields : list (string * value)).

(** The own properties of an object. *)
Definition object := list (string * value).

(** What the JavaScript runtime provides and the model leaves abstract:
    the decimal rendering of a number and the percent-encoding of
    [encodeURIComponent] (applied to the string conversion of its
    argument, and taken to return). *)
Class Runtime : Type := {
  Number_toString : float -> string;
  encodeURIComponent : value -> string
}.

Module JS.

(** ToBoolean *)
Definition truthy (v : value) : bool :=
  match v with
  | VUndefined | VNull => false
  | VBool b => b
  | VNum n => negb (PrimFloat.eqb n 0) && PrimFloat.eqb n n
  | VStr s => negb (String.eqb s "")
  | VArr _ | VObj _ => true
  end.

Definition nullish (v : value) : bool :=
  match v with
  | VUndefined | VNull => true
  | _ => false
  end.

(** [a || b] *)
Definition or (a b : value) : value := if truthy a then a else b.

Section Conversions.
Context {rt : Runtime}.

(** ToString.  An array prints as its elements joined by commas, an
    undefined or null element printing as the empty string; a plain
    object prints as [[object Object]]. *)
Fixpoint ToString (v : value) : string :=
  match v with
  | VUndefined => "undefined"
  | VNull => "null"
  | VBool true => "true"
  | VBool false => "false"
  | VNum n => Number_toString n
  | VStr s => s
  | VArr elems =>
      (fix join (l : list value) : string :=
         match l with
         | [] => ""
         | x :: rest =>
             let sx := if nullish x then "" else ToString x in
             match rest with
             | [] => sx
             | _ :: _ => sx ++ "," ++ join rest
             end
         end) elems
  | VObj _ => "[object Object]"
  end.

(** Array.prototype.join(sep) *)
Fixpoint Array_join (sep : string) (l : list value) : string :=
  match l with
  | [] => ""
  | x :: rest =>
      let sx := if nullish x then "" else ToString x in
      match rest with
      | [] => sx
      | _ :: _ => sx ++ sep ++ Array_join sep rest
      end
  end.

(** ToPrimitive (no hint): arrays and plain objects go through their
    [toString]. *)
Definition ToPrimitive (v : value) : value :=
  match v with
  | VArr _ | VObj _ => VStr (ToString v)
  | _ => v
  end.

(** ToNumber on the primitives that are not strings. *)
Definition ToNumber (v : value) : float :=
  match v with
  | VNull => 0%float
  | VBool true => 1%float
  | VBool false => 0%float
  | VNum n => n
  | _ => PrimFloat.nan
  end.

Definition is_string (v : value) : bool :=
  match v with VStr _ => true | _ => false end.

(** The binary [+]: once both operands are primitives, concatenation as
    soon as one of them is a string, numeric addition otherwise. *)
Definition add (a b : value) : value :=
  let pa := ToPrimitive a in
  let pb := ToPrimitive b in
  if is_string pa || is_string pb
  then VStr (ToString pa ++ ToString pb)
  else VNum (PrimFloat.add (ToNumber pa) (ToNumber pb)).

(** [v == w] for a string [w] that is not a numeric literal, so that
    ToNumber w is NaN and no number or boolean equals it.  The source
    compares with "SUCCESS", "FAILED" and "notFound" only. *)
Definition loose_eq_word (v : value) (w : string) : bool :=
  match ToPrimitive v with
  | VStr s => String.eqb s w
  | _ => false
  end.

End Conversions.

(** Lookup of an own property; [undefined] when absent. *)
Fixpoint prop (o : object) (k : string) : value :=
  match o with
  | [] => VUndefined
  | (k', v) :: rest => if String.eqb k' k then v else prop rest k
  end.

Fixpoint hasOwnProperty (o : object) (k : string) : bool :=
  match o with
  | [] => false
  | (k', _) :: rest => String.eqb k' k || hasOwnProperty rest k
  end.

(** [o.k = v]: overwrite in place, or append as the newest property. *)
Fixpoint assign (o : object) (k : string) (v : value) : object :=
  match o with
  | [] => [(k, v)]
  | (k', v') :: rest =>
      if String.eqb k' k then (k', v) :: rest else (k', v') :: assign rest k v
  end.

Definition keys (o : object) : list string := map fst o.

(** The digit a character stands for. *)
Definition digit_of (c : ascii) : option N :=
  let n := N_of_ascii c in
  if (N.leb 48 n && N.leb n 57)%bool then Some (n - 48)%N else None.

(** The number a string of decimal digits denotes. *)
Fixpoint digits (s : string) (acc : N) : option N :=
  match s with
  | EmptyString => Some acc
  | String c rest =>
      match digit_of c with
      | Some d => digits rest (10 * acc + d)%N
      | None => None
      end
  end.

(** A property key is an array index when it is the canonical decimal
    numeral (no sign, no leading zero) of an integer below 2^32 - 1. *)
Definition index_of_key (k : string) : option N :=
  match k with
  | EmptyString => None
  | String "0" (String _ _) => None
  | _ =>
      match digits k 0 with
      | Some n => if N.ltb n 4294967295 then Some n else None
      | None => None
      end
  end.

(** The array-index keys of an object, with their numbers, and the other
    keys, each in insertion order. *)
Fixpoint index_keys (ks : list string) : list (N * string) :=
  match ks with
  | [] => []
  | k :: rest =>
      match index_of_key k with
      | Some n => (n, k) :: index_keys rest
      | None => index_keys rest
      end
  end.

Definition name_keys (ks : list string) : list string :=
  filter (fun k => match index_of_key k with Some _ => false | None => true end) ks.

Fixpoint insert_index (x : N * string) (l : list (N * string)) : list (N * string) :=
  match l with
  | [] => [x]
  | y :: rest => if N.leb (fst x) (fst y) then x :: l else y :: insert_index x rest
  end.

Definition ascending (l : list (N * string)) : list (N * string) :=
  fold_right insert_index [] l.

(** The keys [for (var k in o)] visits, in its order, for an object whose
    enumerable properties are its own: the array-index keys in ascending
    numeric order, then the other keys in insertion order. *)
Definition for_in (o : object) : list string :=
  (map snd (ascending (index_keys (keys o))) ++ name_keys (keys o))%list.

(** What [v.k] holds when [v] is neither undefined nor null, for the data
    keys of this program. *)
Definition member (v : value) (k : string) : value :=
  match v with
  | VObj o => prop o k
  | _ => VUndefined
  end.

(** String.prototype.substring(start, end) for non-negative integer
    arguments: both are clamped to the length and swapped if needed. *)
Definition substring (s : string) (start finish : nat) : string :=
  let len := String.length s in
  let a := Nat.min start len in
  let b := Nat.min finish len in
  String.substring (Nat.min a b) (Nat.max a b - Nat.min a b) s.

(** Array.prototype.pop on a non-empty array: the last element and the
    array that is left. *)
Definition pop {A : Type} (l : list A) : option (A * list A) :=
  match rev l with
  | [] => None
  | x :: before => Some (x, rev before)
  end.

(** [_.compact]: the truthy elements. *)
Definition compact (l : list value) : list value := filter truthy l.

(** The elements of an array.  The platform hands arrays to the code that
    iterates; a value that is not an array is taken to have none. *)
Definition elements (v : value) : list value :=
  match v with
  | VArr l => l
  | _ => []
  end.

(** [_.isEmpty] on an array. *)
Definition isEmpty {A : Type} (l : list A) : bool :=
  match l with
  | [] => true
  | _ :: _ => false
  end.

End JS.

Declare Scope js_scope.
Delimit Scope js_scope with js.
Notation "a + b" := (JS.add a b) : js_scope.

(** ** Effects

    A piece of code runs to completion on the single thread: it reads and
    writes the variables [S] of its closure, leaves a trace of the things
    it does to the outside, and either returns or throws. *)

Inductive exn : Type :=
| TypeError
| ReferenceError (name : string)
| ErrorEvent (e : value).

Inductive outcome (A : Type) : Type :=
| Returned (a : A)
| Thrown (e : exn).
Arguments Returned {A} a.
Arguments Thrown {A} e.

Definition M (E S A : Type) : Type := S -> list E * outcome (A * S).

Module Eff.
Section Ops.
Context {E S : Type}.

Definition ret {A} (a : A) : M E S A := fun s => ([], Returned (a, s)).

Definition bind {A B} (m : M E S A) (f : A -> M E S B) : M E S B :=
  fun s =>
    match m s with
    | (t1, Thrown e) => (t1, Thrown e)
    | (t1, Returned (a, s1)) =>
        let '(t2, r) := f a s1 in ((t1 ++ t2)%list, r)
    end.

Definition throw {A} (e : exn) : M E S A := fun _ => ([], Thrown e).
Definition emit (a : E) : M E S unit := fun s => ([a], Returned (tt, s)).
Definition read : M E S S := fun s => ([], Returned (s, s)).
Definition write (s : S) : M E S unit := fun _ => ([], Returned (tt, s)).

(** Property read [v.k] for the data keys of this program (none of them
    is an index, [length] or a prototype member): a TypeError on undefined
    and null, the own property of an object, undefined on the other
    values. *)
Definition get (v : value) (k : string) : M E S value :=
  if JS.nullish v then throw TypeError else ret (JS.member v k).

(** [_.each] on an array, the iteratee updating the local [b]. *)
Fixpoint each {A B} (l : list A) (f : B -> A -> M E S B) (b : B) : M E S B :=
  match l with
  | [] => ret b
  | x :: rest => bind (f b x) (fun b' => each rest f b')
  end.

(** [_.map] on an array. *)
Fixpoint map {A B} (l : list A) (f : A -> M E S B) : M E S (list B) :=
  match l with
  | [] => ret []
  | x :: rest => bind (f x) (fun y => bind (map rest f) (fun ys => ret (y :: ys)))
  end.

End Ops.
End Eff.

Declare Scope eff_scope.
Delimit Scope eff_scope with eff.
Notation "x <- m ;; k" := (Eff.bind m (fun x => k))
  (at level 100, m at next level, right associativity) : eff_scope.
Notation "m ;; k" := (Eff.bind m (fun _ => k))
  (at level 100, right associativity) : eff_scope.

(** What a run did: the trace and how it ended. *)
Definition trace_of {E S A} (r : list E * outcome (A * S)) : list E := fst r.

Definition threw {E S A} (r : list E * outcome (A * S)) : option exn :=
  match snd r with Thrown e => Some e | Returned _ => None end.

Definition arg (i : nat) (args : list value) : value := nth i args VUndefined.

(** ** The outside world *)

(** The npm packages: [sha1] (the hex digest of its argument), the xml2js
    parser, given by the arguments [(err, result)] with which
    [parseString] calls its continuation, and underscore's [_.union]. *)
Class Packages : Type := {
  sha1 : value -> string;
  parseString : string -> value * value;
  underscore_union : value -> value -> value
}.

(** The host platform (modules of OAE that are not part of this
    repository): the per-tenant configuration store and the message-box
    search helpers.  [createAllMessageSearchDocuments] is asynchronous; it
    is given by the arguments [(err, documents)] it passes to its
    continuation.  [MAPPING_MEETING_MESSAGE] is the constant of
    [MeetingsConstants.search]. *)
Class Platform : Type := {
  BBBConfig_getValue : value -> string -> string -> value;
  MAPPING_MEETING_MESSAGE : value;
  createMessageSearchDocuments : value -> value -> value -> value;
  createAllMessageSearchDocuments : value -> value -> value -> value * value
}.

(** Node's http client, as this program uses it:
    [http.request(url, listener).end()] sends the request and returns.
    Later the exchange either fails, which node reports as an 'error'
    event on the request object, or brings the response, whose body
    arrives as 'data' events. *)
Inductive exchange : Type :=
| RequestError (e : value)
| ResponseData (chunk : string).

(** Things done to the outside by the BigBlueButton code. *)
Inductive action (S : Type) : Type :=
| HttpRequest (url : value) (listener : exchange -> M (action S) S unit)
| Invoke (args : list value)
| ConsoleInfo (v : value).
Arguments HttpRequest {S} url listener.
Arguments Invoke {S} args.
Arguments ConsoleInfo {S} v.

(** ** internal/proxy: [executeBBBCall] *)

Module BBBProxy.
Section Proxy.
Context {rt : Runtime} {pk : Packages} {S : Type}.
Local Open Scope eff_scope.

(** The function given to [res.on('data', ...)]. *)
Definition onData (callback : list value -> M (action S) S unit) (chunk : string)
  : M (action S) S unit :=
  let '(err, result) := parseString chunk in
  if JS.truthy err then callback [err]
  else
    Eff.emit (ConsoleInfo result) ;;
    response <- Eff.get result "response" ;;
    returncode <- Eff.get response "returncode" ;;
    if JS.loose_eq_word returncode "SUCCESS"
    then (response <- Eff.get result "response" ;;
          callback [VNull; response])
    else (response <- Eff.get result "response" ;;
          callback [VNull; response]).

(** What the request object does with the exchange.  Only the response
    listener is installed; an 'error' event finds no listener, and node's
    emitter throws the error. *)
Definition listeners (callback : list value -> M (action S) S unit) (ev : exchange)
  : M (action S) S unit :=
  match ev with
  | RequestError e => Eff.throw (ErrorEvent e)
  | ResponseData chunk => onData callback chunk
  end.

Definition executeBBBCall (url : value) (callback : list value -> M (action S) S unit)
  : M (action S) S unit :=
  Eff.emit (HttpRequest url (listeners callback)).

End Proxy.
End BBBProxy.

(** ** api: [getJoinMeetingURL] *)

(** The context object of a request: [ctx.tenant()] is what its method
    [tenant] returns. *)
Record Context : Type := { tenant : value }.

Module BBBApi.

(** The variables of one [getJoinMeetingURL] activation that are
    assigned after their declaration. *)
Record vars : Type := { moderatorPW : value; attendeePW : value }.

(** [var] declarations are hoisted: on entry they hold undefined. *)
Definition hoisted : vars :=
  {| moderatorPW := VUndefined; attendeePW := VUndefined |}.

Section Api.
Context {rt : Runtime} {pk : Packages} {pf : Platform}.
Local Open Scope eff_scope.

Definition set_moderatorPW (v : value) : M (action vars) vars unit :=
  s <- Eff.read ;; Eff.write {| moderatorPW := v; attendeePW := attendeePW s |}.

Definition set_attendeePW (v : value) : M (action vars) vars unit :=
  s <- Eff.read ;; Eff.write {| moderatorPW := moderatorPW s; attendeePW := v |}.

Definition _getChecksum (action secret params : value) : value :=
  VStr (sha1 (action + params + secret)%js).

Definition _getBBBActionURL (endpoint action secret params : value) : value :=
  (endpoint + VStr "api/" + action + VStr "?" + params + VStr "&checksum="
   + _getChecksum action secret params)%js.

Definition _getVerifiedBBBEndpoint (endpoint : value) : value := endpoint.

Definition _getConfig (tenantAlias : value) : object :=
  [ ("endpoint", _getVerifiedBBBEndpoint (BBBConfig_getValue tenantAlias "bbb" "endpoint"));
    ("secret", BBBConfig_getValue tenantAlias "bbb" "secret") ].

(** [params.hasOwnProperty(param)].  The method is looked up on [params]
    first: an own property of that name holds data, which is not callable,
    and the call throws; otherwise it is Object.prototype's. *)
Definition hasOwn (params : object) (param : string) : M (action vars) vars bool :=
  if JS.hasOwnProperty params "hasOwnProperty"
  then Eff.throw TypeError
  else Eff.ret (JS.hasOwnProperty params param).

(** One turn of the [for (var param in params)] loop; [qsParams] is a
    string from its initialisation on. *)
Definition qs_turn (params : object) (qsParams : string) (param : string)
  : M (action vars) vars string :=
  own <- hasOwn params param ;;
  if own then
    let qsParams := qsParams ++ (if negb (String.eqb qsParams "") then "&" else "") in
    Eff.ret (qsParams ++ JS.ToString (VStr param + VStr "=" + JS.prop params param)%js)
  else Eff.ret qsParams.

Definition _getQueryStringParams (params : object) : M (action vars) vars value :=
  qsParams <- Eff.each (JS.for_in params) (qs_turn params) "" ;;
  Eff.emit (ConsoleInfo (VStr qsParams)) ;;
  Eff.ret (VStr qsParams).

(** The caller's callback: its invocations are what the caller sees. *)
Definition callback (args : list value) : M (action vars) vars unit :=
  Eff.emit (Invoke args).

(** The continuation of the [create] call. *)
Definition onCreate (args : list value) : M (action vars) vars unit :=
  let err := arg 0 args in
  let meetingInfo := arg 1 args in
  if JS.truthy err then callback [err]
  else
    Eff.emit (ConsoleInfo meetingInfo) ;;
    m <- Eff.get meetingInfo "moderatorPW" ;;
    set_moderatorPW m ;;
    a <- Eff.get meetingInfo "attendeePW" ;;
    set_attendeePW a.

(** The continuation of the [getMeetingInfo] call. *)
Definition onMeetingInfo (config : object) (fullName meetingID meetingName : value)
    (args : list value) : M (action vars) vars unit :=
  let err := arg 0 args in
  let meetingInfo := arg 1 args in
  if JS.truthy err then callback [err]
  else
    Eff.emit (ConsoleInfo meetingInfo) ;;
    returncode <- Eff.get meetingInfo "returncode" ;;
    notFound <- (if JS.loose_eq_word returncode "FAILED"
                 then (messageKey <- Eff.get meetingInfo "messageKey" ;;
                       Eff.ret (JS.loose_eq_word messageKey "notFound"))
                 else Eff.ret false) ;;
    (if notFound : bool then
       s <- Eff.read ;;
       let params := [ ("meetingID", meetingID); ("name", meetingName);
                       ("password", moderatorPW s); ("record", VStr "true") ] in
       qs <- _getQueryStringParams [ ("meetingID", meetingID) ] ;;
       let getCreateMeetingURL :=
         _getBBBActionURL (JS.prop config "endpoint") (VStr "create")
                          (JS.prop config "secret") qs in
       BBBProxy.executeBBBCall getCreateMeetingURL onCreate
     else
       m <- Eff.get meetingInfo "moderatorPW" ;;
       set_moderatorPW m ;;
       a <- Eff.get meetingInfo "attendeePW" ;;
       set_attendeePW a) ;;
    s <- Eff.read ;;
    let params := [ ("meetingID", meetingID); ("fullName", fullName);
                    ("password", moderatorPW s) ] in
    qs <- _getQueryStringParams params ;;
    let joinURL :=
      _getBBBActionURL (JS.prop config "endpoint") (VStr "join")
                       (JS.prop config "secret") qs in
    callback [VNull; VObj [ ("url", joinURL) ]].

Definition getJoinMeetingURL (ctx : Context) (meetingProfile user : value)
  : M (action vars) vars unit :=
  alias <- Eff.get (tenant ctx) "alias" ;;
  let config := _getConfig alias in
  displayName <- Eff.get user "displayName" ;;
  let fullName := VStr (encodeURIComponent displayName) in
  id <- Eff.get meetingProfile "id" ;;
  let meetingID := sha1 (id + JS.prop config "secret")%js in
  displayName <- Eff.get meetingProfile "displayName" ;;
  let meetingName := VStr (encodeURIComponent displayName) in
  set_moderatorPW
    (VStr (sha1 (VStr (JS.substring meetingID 0 8) + JS.prop config "secret")%js)) ;;
  set_attendeePW
    (VStr (sha1 (VStr (JS.substring meetingID 8 8) + JS.prop config "secret")%js)) ;;
  qs <- _getQueryStringParams [ ("meetingID", VStr meetingID) ] ;;
  let getMeetingInfoURL :=
    _getBBBActionURL (JS.prop config "endpoint") (VStr "getMeetingInfo")
                     (JS.prop config "secret") qs in
  BBBProxy.executeBBBCall getMeetingInfoURL
    (onMeetingInfo config fullName (VStr meetingID) meetingName).

End Api.
End BBBApi.

(** ** The event loop

    A process is the variables of the activation, everything done so far,
    and the exception that ended it, if any.  The pending requests are the
    ones sent so far, in order; the network delivers an exchange to one of
    them and the listeners of that request run to completion.  An
    exception that nobody catches ends the process. *)

Record process (S : Type) : Type := {
  p_vars : S;
  p_trace : list (action S);
  p_crashed : option exn
}.
Arguments p_vars {S} p.
Arguments p_trace {S} p.
Arguments p_crashed {S} p.

Fixpoint requests {S} (t : list (action S))
  : list (value * (exchange -> M (action S) S unit)) :=
  match t with
  | [] => []
  | HttpRequest url l :: rest => (url, l) :: requests rest
  | _ :: rest => requests rest
  end.

Fixpoint invocations {S} (t : list (action S)) : list (list value) :=
  match t with
  | [] => []
  | Invoke args :: rest => args :: invocations rest
  | _ :: rest => invocations rest
  end.

Definition request_urls {S} (t : list (action S)) : list value :=
  map fst (requests t).

Definition start {S} (m : M (action S) S unit) (s0 : S) : process S :=
  match m s0 with
  | (t, Returned (_, s)) => {| p_vars := s; p_trace := t; p_crashed := None |}
  | (t, Thrown e) => {| p_vars := s0; p_trace := t; p_crashed := Some e |}
  end.

Definition deliver {S} (p : process S) (n : nat) (ev : exchange) : process S :=
  match p_crashed p with
  | Some _ => p
  | None =>
      match nth_error (requests (p_trace p)) n with
      | None => p
      | Some (_, l) =>
          match l ev (p_vars p) with
          | (t, Returned (_, s)) =>
              {| p_vars := s; p_trace := (p_trace p ++ t)%list; p_crashed := None |}
          | (t, Thrown e) =>
              {| p_vars := p_vars p; p_trace := (p_trace p ++ t)%list;
                 p_crashed := Some e |}
          end
      end
  end.

Definition run {S} (p : process S) (schedule : list (nat * exchange)) : process S :=
  fold_left (fun p d => deliver p (fst d) (snd d)) schedule p.

(** ** lib/search: the document producers *)

(** Things done to the outside by the search hooks. *)
Inductive call : Type :=
| GetMeetingsById (meetingIds opts : value)
    (continuation : list value -> M call unit unit)
| CreateMessageSearchDocuments (name resourceId messages : value)
| CreateAllMessageSearchDocuments (name resourceId messageBoxId : value)
| Callback (args : list value).

Definition inspect {A : Type} (a : A) : {b : A | a = b} := exist _ a eq_refl.

Module Search.
Section Producers.
Context {rt : Runtime} {pk : Packages} {pf : Platform}.
Local Open Scope eff_scope.

(** The search API's callback: its invocations are what the API sees. *)
Definition callback (args : list value) : M call unit unit :=
  Eff.emit (Callback args).

Equations? _produceMeetingMessageDocuments
  (resources : list value) (_documents _errs : value)
  : M call unit unit by wf (List.length resources) lt :=
_produceMeetingMessageDocuments resources _documents _errs
  with inspect (JS.pop resources) := {
  | exist _ None _ => callback [_errs; JS.or _documents (VArr [])]
  | exist _ (Some (resource, rest)) popped =>
      let _documents := JS.or _documents (VArr []) in
      messages <- Eff.get resource "messages" ;;
      if JS.truthy messages then
        id <- Eff.get resource "id" ;;
        messages <- Eff.get resource "messages" ;;
        Eff.emit (CreateMessageSearchDocuments MAPPING_MEETING_MESSAGE id messages) ;;
        let documents :=
          createMessageSearchDocuments MAPPING_MEETING_MESSAGE id messages in
        let _documents := underscore_union _documents documents in
        _produceMeetingMessageDocuments rest _documents _errs
      else
        id <- Eff.get resource "id" ;;
        boxId <- Eff.get resource "id" ;;
        Eff.emit (CreateAllMessageSearchDocuments MAPPING_MEETING_MESSAGE id boxId) ;;
        let '(err, documents) :=
          createAllMessageSearchDocuments MAPPING_MEETING_MESSAGE id boxId in
        let _errs :=
          if JS.truthy err then underscore_union _errs (VArr [err]) else _errs in
        let _documents := underscore_union _documents documents in
        _produceMeetingMessageDocuments rest _documents _errs }.
Proof.
  all: unfold JS.pop in popped; destruct (rev resources) as [|x before] eqn:Hrev;
    [discriminate|]; injection popped as <- <-;
    rewrite <- (length_rev resources), Hrev, length_rev; simpl; lia.
Qed.

(** One turn of the [_.each] of [_getMeetings]; [dicussions] is declared
    nowhere, so evaluating it throws. *)
Definition sort_resource (meetingIds : list value) (resource : value)
  : M call unit (list value) :=
  meeting <- Eff.get resource "meeting" ;;
  if JS.truthy meeting then Eff.throw (ReferenceError "dicussions")
  else (id <- Eff.get resource "id" ;; Eff.ret (meetingIds ++ [id])%list).

Definition _getMeetings (resources : list value)
    (callback : list value -> M call unit unit) : M call unit unit :=
  let meetings : list value := [] in
  meetingIds <- Eff.each resources sort_resource [] ;;
  if JS.isEmpty meetingIds then callback [VNull; VArr meetings]
  else Eff.emit (GetMeetingsById (VArr meetingIds) VNull callback).

Definition _produceMeetingSearchDocument (meeting : value) : M call unit value :=
  displayName <- Eff.get meeting "displayName" ;;
  description <- Eff.get meeting "description" ;;
  let fullText := JS.Array_join " " (JS.compact [displayName; description]) in
  id <- Eff.get meeting "id" ;;
  tenant <- Eff.get meeting "tenant" ;;
  alias <- Eff.get tenant "alias" ;;
  visibility <- Eff.get meeting "visibility" ;;
  lastModified <- Eff.get meeting "lastModified" ;;
  let doc : object :=
    [ ("resourceType", VStr "meeting");
      ("id", id);
      ("tenantAlias", alias);
      ("displayName", displayName);
      ("visibility", visibility);
      ("q_high", displayName);
      ("q_low", VStr fullText);
      ("sort", displayName);
      ("_extra", VObj [ ("lastModified", lastModified) ]) ] in
  description <- Eff.get meeting "description" ;;
  if JS.truthy description
  then Eff.ret (VObj (JS.assign doc "description" description))
  else Eff.ret (VObj doc).

(** The continuation [_produceMeetingSearchDocuments] gives to
    [_getMeetings]. *)
Definition onMeetings (args : list value) : M call unit unit :=
  let err := arg 0 args in
  let meetings := arg 1 args in
  if JS.truthy err then callback [VArr [err]]
  else
    let meetings := JS.compact (JS.elements meetings) in
    if JS.isEmpty meetings then callback []
    else (docs <- Eff.map meetings _produceMeetingSearchDocument ;;
          callback [VNull; VArr docs]).

Definition _produceMeetingSearchDocuments (resources : list value)
  : M call unit unit :=
  _getMeetings resources onMeetings.

End Producers.
End Search.

(** ** Vocabulary of the statements *)

(** A caller's callback that does nothing but be seen. *)
Definition report {S} (args : list value) : M (action S) S unit :=
  Eff.emit (Invoke args).

(** The answer in a chunk: the parse raises no error and the parsed
    document has a 'response' member that is neither undefined nor
    null. *)
Definition answer {pk : Packages} (chunk : string) : option value :=
  let '(err, result) := parseString chunk in
  if JS.truthy err then None
  else if JS.nullish (JS.member result "response") then None
  else Some (JS.member result "response").

Module Claimed.
Section Formulas.
Context {rt : Runtime} {pk : Packages}.

(** The signed URL as the specification words it:
    endpoint + 'api/' + action + '?' + params + '&checksum=' +
    sha1(action + params + secret). *)
Definition signed_url (endpoint secret : value) (action params : string) : value :=
  VStr (JS.ToString endpoint ++ "api/" ++ action ++ "?" ++ params
        ++ "&checksum=" ++ sha1 (VStr (action ++ params ++ JS.ToString secret))).

(** The query string of the keys meetingID, fullName and password, in
    that order, joined by '&'. *)
Definition join_query (meetingID fullName : string) (password : value) : string :=
  "meetingID=" ++ meetingID ++ "&fullName=" ++ fullName
  ++ "&password=" ++ JS.ToString password.

(** "returncode equal to FAILED and messageKey equal to notFound", with
    the equality [==] of the source. *)
Definition not_found (meetingInfo : value) : bool :=
  JS.loose_eq_word (JS.member meetingInfo "returncode") "FAILED"
  && JS.loose_eq_word (JS.member meetingInfo "messageKey") "notFound".

End Formulas.

Section SearchFormulas.
Context {rt : Runtime} {pk : Packages} {pf : Platform}.

(** "Has a truthy 'meeting' property". *)
Definition has_meeting (resource : object) : bool :=
  JS.truthy (JS.prop resource "meeting").

(** The external call made for one resource. *)
Definition call_for (resource : object) : call :=
  let id := JS.prop resource "id" in
  let messages := JS.prop resource "messages" in
  if JS.truthy messages
  then CreateMessageSearchDocuments MAPPING_MEETING_MESSAGE id messages
  else CreateAllMessageSearchDocuments MAPPING_MEETING_MESSAGE id id.

(** The accumulated (documents, errors) after one more resource: the
    union of the documents so far and the documents created for it. *)
Definition gather (acc : value * value) (resource : object) : value * value :=
  let docs := JS.or (fst acc) (VArr []) in
  let errs := snd acc in
  let id := JS.prop resource "id" in
  let messages := JS.prop resource "messages" in
  if JS.truthy messages then
    (underscore_union docs
       (createMessageSearchDocuments MAPPING_MEETING_MESSAGE id messages),
     errs)
  else
    let '(err, documents) :=
      createAllMessageSearchDocuments MAPPING_MEETING_MESSAGE id id in
    (underscore_union docs documents,
     if JS.truthy err then underscore_union errs (VArr [err]) else errs).

(** "The space-joined concatenation of displayName and description with
    missing values dropped", a value being missing when it is falsy. *)
Definition full_text (displayName description : value) : string :=
  match JS.truthy displayName, JS.truthy description with
  | true, true => JS.ToString displayName ++ " " ++ JS.ToString description
  | true, false => JS.ToString displayName
  | false, true => JS.ToString description
  | false, false => ""
  end.

End SearchFormulas.
End Claimed.

(** The invocations of the search API's callback in a trace. *)
Fixpoint callbacks (t : list call) : list (list value) :=
  match t with
  | [] => []
  | Callback args :: rest => args :: callbacks rest
  | _ :: rest => callbacks rest
  end.

(** The locals of one activation of [getJoinMeetingURL], for the tenant
    [t] of the context, the meeting profile and the user, each by the
    expression the source gives it. *)
Module Activation.
Section Locals.
Context {rt : Runtime} {pk : Packages} {pf : Platform}.
Variables (t meetingProfile user : object).

Definition secret : value := BBBConfig_getValue (JS.prop t "alias") "bbb" "secret".

Definition endpoint : value := BBBConfig_getValue (JS.prop t "alias") "bbb" "endpoint".

Definition meetingID : string := sha1 (JS.prop meetingProfile "id" + secret)%js.

Definition fullName : string := encodeURIComponent (JS.prop user "displayName").

Definition meetingName : string :=
  encodeURIComponent (JS.prop meetingProfile "displayName").

Definition firstModeratorPW : string :=
  sha1 (VStr (JS.substring meetingID 0 8) + secret)%js.

Definition firstAttendeePW : string :=
  sha1 (VStr (JS.substring meetingID 8 8) + secret)%js.

(** The process when [getJoinMeetingURL] has returned to its caller. *)
Definition asked : process BBBApi.vars :=
  start (BBBApi.getJoinMeetingURL {| tenant := VObj t |}
           (VObj meetingProfile) (VObj user))
        BBBApi.hoisted.

Definition getMeetingInfoURL : value :=
  Claimed.signed_url endpoint secret "getMeetingInfo" ("meetingID=" ++ meetingID).

Definition getCreateMeetingURL : value :=
  Claimed.signed_url endpoint secret "create" ("meetingID=" ++ meetingID).

Definition joinURL (password : value) : value :=
  Claimed.signed_url endpoint secret "join"
    (Claimed.join_query meetingID fullName password).

End Locals.
End Activation.

(** ** Test doubles and sample inputs *)

Module Sample.

(** A runtime that prints every number as "0" and leaves a string of
    unreserved characters as it is. *)
Definition runtime : Runtime :=
  {| Number_toString := fun _ => "0";
     encodeURIComponent := fun v =>
       match v with
       | VStr s => s
       | _ => "undefined"
       end |}.

Definition notFound_xml : string :=
  "<response><returncode>FAILED</returncode><messageKey>notFound</messageKey></response>".

Definition running_xml : string :=
  "<response><returncode>SUCCESS</returncode><moderatorPW>mp</moderatorPW><attendeePW>ap</attendeePW></response>".

Definition html_page : string := "<html><body>502 Bad Gateway</body></html>".

Definition parse_error : value := VObj [ ("message", VStr "Unclosed root tag") ].

(** A stand-in for the digest that keeps in view what was digested, and
    a parser that knows three documents (in the shape xml2js gives them
    by default, every child an array) and rejects the rest. *)
Definition packages : Packages :=
  {| sha1 := fun v =>
       match v with
       | VStr s => "sha1(" ++ s ++ ")"
       | _ => "sha1(?)"
       end;
     parseString := fun chunk =>
       if String.eqb chunk notFound_xml then
         (VNull, VObj [ ("response",
                         VObj [ ("returncode", VArr [VStr "FAILED"]);
                                ("messageKey", VArr [VStr "notFound"]) ]) ])
       else if String.eqb chunk running_xml then
         (VNull, VObj [ ("response",
                         VObj [ ("returncode", VArr [VStr "SUCCESS"]);
                                ("moderatorPW", VArr [VStr "mp"]);
                                ("attendeePW", VArr [VStr "ap"]) ]) ])
       else if String.eqb chunk html_page then
         (VNull, VObj [ ("html", VObj [ ("body", VArr [VStr "502 Bad Gateway"]) ]) ])
       else (parse_error, VUndefined);
     underscore_union := fun a b => VArr (JS.elements a ++ JS.elements b) |}.

Definition platform : Platform :=
  {| BBBConfig_getValue := fun _ _ key =>
       if String.eqb key "endpoint" then VStr "http://bbb.example.org/"
       else VStr "s3cret";
     MAPPING_MEETING_MESSAGE := VStr "meeting_message";
     createMessageSearchDocuments := fun _ id messages =>
       VArr (map (fun m => VObj [ ("id", id); ("body", m) ]) (JS.elements messages));
     createAllMessageSearchDocuments := fun _ id _ =>
       (VNull, VArr [ VObj [ ("id", id) ] ]) |}.

Definition ctx : Context := {| tenant := VObj [ ("alias", VStr "cam") ] |}.

Definition meetingProfile : object :=
  [ ("id", VStr "m:cam:x1"); ("displayName", VStr "Weekly sync") ].

Definition user : object :=
  [ ("id", VStr "u:cam:abc"); ("displayName", VStr "Ada") ].

Definition meeting : object :=
  [ ("id", VStr "m:cam:x1");
    ("tenant", VObj [ ("alias", VStr "cam") ]);
    ("displayName", VStr "Weekly sync");
    ("description", VStr "Planning");
    ("visibility", VStr "public");
    ("lastModified", VNum 1400000000000%float) ].

End Sample.

(** ** lib/search: the indexing tasks and the reindex handler *)

(** Things done to the outside by the event handlers. *)
Inductive task : Type :=
| PostIndexTask (resourceType resources index : value)
| PostDeleteTask (id : value)
| DeleteMessageSearchDocument (name resourceId message : value)
| LogInfo (format : string) (count : nat)
| Done.

(** The events of [MeetingsConstants.events] this file listens to. *)
Inductive event : Type :=
| CREATED_MEETING
| UPDATED_MEETING
| UPDATED_MEETING_MEMBERS
| DELETED_MEETING
| CREATED_MEETING_MESSAGE
| DELETED_MEETING_MESSAGE.

Module SearchEvents.
Section Handlers.
Context {rt : Runtime} {pk : Packages} {pf : Platform}.
Local Open Scope eff_scope.

(** function(ctx, meeting, members) *)
Definition onCreatedMeeting (args : list value) : M task unit unit :=
  let meeting := arg 1 args in
  id <- Eff.get meeting "id" ;;
  Eff.emit (PostIndexTask (VStr "meeting") (VArr [ VObj [ ("id", id) ] ])
              (VObj [ ("resource", VBool true);
                      ("children", VObj [ ("resource_members", VBool true) ]) ])).

(** function(ctx, meeting, updatedMeeting) *)
Definition onUpdatedMeeting (args : list value) : M task unit unit :=
  let meeting := arg 1 args in
  id <- Eff.get meeting "id" ;;
  Eff.emit (PostIndexTask (VStr "meeting") (VArr [ VObj [ ("id", id) ] ])
              (VObj [ ("resource", VBool true) ])).

(** function(ctx, meeting) *)
Definition onUpdatedMeetingMembers (args : list value) : M task unit unit :=
  let meeting := arg 1 args in
  id <- Eff.get meeting "id" ;;
  Eff.emit (PostIndexTask (VStr "meeting") (VArr [ VObj [ ("id", id) ] ])
              (VObj [ ("children", VObj [ ("resource_members", VBool true) ]) ])).

(** function(ctx, meeting) *)
Definition onDeletedMeeting (args : list value) : M task unit unit :=
  let meeting := arg 1 args in
  id <- Eff.get meeting "id" ;;
  Eff.emit (PostDeleteTask id).

(** function(ctx, message, meeting) *)
Definition onCreatedMeetingMessage (args : list value) : M task unit unit :=
  let message := arg 1 args in
  let meeting := arg 2 args in
  id <- Eff.get meeting "id" ;;
  let resource := VObj [ ("id", id); ("messages", VArr [ message ]) ] in
  Eff.emit (PostIndexTask (VStr "meeting") (VArr [ resource ])
              (VObj [ ("children", VObj [ ("meeting_message", VBool true) ]) ])).

(** function(ctx, message, meeting, deleteType) *)
Definition onDeletedMeetingMessage (args : list value) : M task unit unit :=
  let message := arg 1 args in
  let meeting := arg 2 args in
  id <- Eff.get meeting "id" ;;
  Eff.emit (DeleteMessageSearchDocument MAPPING_MEETING_MESSAGE id message).

(** The registrations [MeetingsAPI.on(event, handler)]. *)
Definition listener (ev : event) : list value -> M task unit unit :=
  match ev with
  | CREATED_MEETING => onCreatedMeeting
  | UPDATED_MEETING => onUpdatedMeeting
  | UPDATED_MEETING_MEMBERS => onUpdatedMeetingMembers
  | DELETED_MEETING => onDeletedMeeting
  | CREATED_MEETING_MESSAGE => onCreatedMeetingMessage
  | DELETED_MEETING_MESSAGE => onDeletedMeetingMessage
  end.

(** One turn of the [_.each] of [_onEach]. *)
Definition batch_row (meetingResources : list value) (meetingRow : value)
  : M task unit (list value) :=
  id <- Eff.get meetingRow "id" ;;
  Eff.ret (meetingResources ++ [ VObj [ ("id", id) ] ])%list.

(** The iteratee the reindex-all handler gives to [MeetingsDAO.iterateAll]. *)
Definition _onEach (meetingRows : list value) : M task unit unit :=
  meetingResources <- Eff.each meetingRows batch_row [] ;;
  Eff.emit (LogInfo "Firing re-indexing task for %s meetings."
              (List.length meetingResources)) ;;
  Eff.emit (PostIndexTask (VStr "meeting") (VArr meetingResources)
              (VObj [ ("resource", VBool true); ("children", VBool true) ])) ;;
  Eff.emit Done.

(** The producer [init] registers for the message documents: it works on
    a copy of the array it is given, with no documents and no errors to
    begin with. *)
Definition messageDocumentProducer (resources : list value) : M call unit unit :=
  Search._produceMeetingMessageDocuments resources VUndefined VUndefined.

End Handlers.
End SearchEvents.

(** ** Vocabulary of the further statements *)

Module Observed.
Section Formulas.
Context {rt : Runtime} {pk : Packages} {pf : Platform}.

(** One pair of a query string: the key, '=', the value as a string. *)
Definition pair_text (params : object) (param : string) : string :=
  param ++ "=" ++ JS.ToString (JS.prop params param).

(** What the callback of [executeBBBCall] hears over the exchanges of one
    request, up to the first one that ends the process. *)
Fixpoint heard (evs : list exchange) : list (list value) :=
  match evs with
  | [] => []
  | RequestError _ :: _ => []
  | ResponseData chunk :: rest =>
      if JS.truthy (fst (parseString chunk))
      then [fst (parseString chunk)] :: heard rest
      else match answer chunk with
           | Some meetingInfo => [VNull; meetingInfo] :: heard rest
           | None => []
           end
  end.

(** The exception that ends the process over these exchanges, if any. *)
Fixpoint failure (evs : list exchange) : option exn :=
  match evs with
  | [] => None
  | RequestError e :: _ => Some (ErrorEvent e)
  | ResponseData chunk :: rest =>
      if JS.truthy (fst (parseString chunk)) then failure rest
      else match answer chunk with
           | Some _ => failure rest
           | None => Some TypeError
           end
  end.

(** A meeting that is there and has a tenant. *)
Definition servable (meeting : value) : bool :=
  negb (JS.nullish meeting) && negb (JS.nullish (JS.member meeting "tenant")).

(** A resource without messages at hand for which reading the message box
    reports an error. *)
Definition reports_error (resource : object) : bool :=
  negb (JS.truthy (JS.prop resource "messages"))
  && JS.truthy (fst (createAllMessageSearchDocuments MAPPING_MEETING_MESSAGE
                       (JS.prop resource "id") (JS.prop resource "id"))).

End Formulas.

(** The process after the listeners of a request have run. *)
Definition settle {S} (p : process S) (r : list (action S) * outcome (unit * S))
  : process S :=
  match r with
  | (t, Returned (_, s)) =>
      {| p_vars := s; p_trace := (p_trace p ++ t)%list; p_crashed := None |}
  | (t, Thrown e) =>
      {| p_vars := p_vars p; p_trace := (p_trace p ++ t)%list; p_crashed := Some e |}
  end.

(** The meeting among the arguments of a listener, and whether the
    listener posts an index task. *)
Definition meeting_of (ev : event) (args : list value) : value :=
  match ev with
  | CREATED_MEETING_MESSAGE | DELETED_MEETING_MESSAGE => arg 2 args
  | _ => arg 1 args
  end.

Definition posts_index (ev : event) : bool :=
  match ev with
  | DELETED_MEETING | DELETED_MEETING_MESSAGE => false
  | _ => true
  end.

(** The resource arrays of the index tasks in a trace. *)
Fixpoint index_tasks (t : list task) : list (list value) :=
  match t with
  | [] => []
  | PostIndexTask _ resources _ :: rest => JS.elements resources :: index_tasks rest
  | _ :: rest => index_tasks rest
  end.

End Observed.

(** * Properties *)

(** ** Strings and the operators *)

Lemma append_assoc (a b c : string) : (a ++ b) ++ c = a ++ (b ++ c).
Proof.
  induction a as [|ch a IH]; simpl; [reflexivity | now rewrite IH].
Qed.

Section OperatorFacts.
Context {rt : Runtime}.

Lemma ToString_ToPrimitive (v : value) :
  JS.ToString (JS.ToPrimitive v) = JS.ToString v.
Proof. destruct v; reflexivity. Qed.

Lemma add_string_l (s : string) (v : value) :
  (VStr s + v)%js = VStr (s ++ JS.ToString v).
Proof.
  unfold JS.add. simpl. now rewrite ToString_ToPrimitive.
Qed.

Lemma add_string_r (v : value) (s : string) :
  (v + VStr s)%js = VStr (JS.ToString v ++ s).
Proof.
  unfold JS.add. simpl. rewrite orb_true_r. now rewrite ToString_ToPrimitive.
Qed.

Lemma loose_eq_word_string (s w : string) :
  JS.loose_eq_word (VStr s) w = String.eqb s w.
Proof. reflexivity. Qed.

(** An array of one string, which is how xml2js hands over the text of
    an element by default, is loosely equal to that string. *)
Lemma loose_eq_word_singleton (s w : string) :
  JS.loose_eq_word (VArr [VStr s]) w = String.eqb s w.
Proof. reflexivity. Qed.

End OperatorFacts.

Lemma substring_empty_range (s : string) (n : nat) : JS.substring s n n = "".
Proof.
  unfold JS.substring.
  rewrite Nat.min_id, Nat.max_id, Nat.sub_diag.
  generalize (Nat.min n (String.length s)) as k.
  induction s as [|c s IH]; intros [|k]; simpl; auto.
Qed.

(** The operators on a few values. *)

Section OperatorExamples.
Context {rt : Runtime}.

Example add_examples :
  (VStr "a" + VNull)%js = VStr "anull"
  /\ (VNull + VBool true)%js = VNum 1%float
  /\ (VArr [VStr "FAILED"] + VStr "")%js = VStr "FAILED"
  /\ (VObj [] + VStr "")%js = VStr "[object Object]"
  /\ JS.ToString (VArr [VStr "a"; VNull; VArr [VStr "b"; VStr "c"]]) = "a,,b,c"
  /\ JS.Array_join " " [VStr "a"; VUndefined; VStr "b"] = "a  b".
Proof. repeat split. Qed.

Example truthy_examples :
  map JS.truthy [ VUndefined; VNull; VBool false; VNum 0%float; VNum PrimFloat.nan;
                  VStr ""; VStr "0"; VArr []; VObj [] ]
  = [ false; false; false; false; false; false; true; true; true ].
Proof. reflexivity. Qed.

Example loose_eq_word_examples :
  JS.loose_eq_word (VArr [VStr "FAILED"]) "FAILED" = true
  /\ JS.loose_eq_word (VStr "failed") "FAILED" = false
  /\ JS.loose_eq_word (VNum 0%float) "FAILED" = false
  /\ JS.loose_eq_word VUndefined "FAILED" = false.
Proof. repeat split. Qed.

Example substring_examples :
  JS.substring "0123456789abcdef" 0 8 = "01234567"
  /\ JS.substring "0123456789abcdef" 8 8 = ""
  /\ JS.substring "abc" 0 8 = "abc"
  /\ JS.substring "abc" 2 1 = "b".
Proof. repeat split. Qed.

Example pop_example : JS.pop [1; 2; 3] = Some (3, [1; 2]).
Proof. reflexivity. Qed.

End OperatorExamples.

(** ** The monad, pointwise *)

Section EffFacts.
Context {E S : Type}.

Lemma bind_ret {A B} (a : A) (f : A -> M E S B) (s : S) :
  Eff.bind (Eff.ret a) f s = f a s.
Proof. unfold Eff.bind, Eff.ret. now destruct (f a s). Qed.

Lemma bind_emit {B} (x : E) (f : unit -> M E S B) (s : S) :
  Eff.bind (Eff.emit x) f s = (x :: fst (f tt s), snd (f tt s)).
Proof. unfold Eff.bind, Eff.emit. now destruct (f tt s). Qed.

Lemma get_member (v : value) (k : string) :
  JS.nullish v = false -> @Eff.get E S v k = Eff.ret (JS.member v k).
Proof. unfold Eff.get. now intros ->. Qed.

Lemma get_nullish (v : value) (k : string) :
  JS.nullish v = true -> @Eff.get E S v k = Eff.throw TypeError.
Proof. unfold Eff.get. now intros ->. Qed.

End EffFacts.

(** ** The signer *)

Section SignerFacts.
Context {rt : Runtime} {pk : Packages} {pf : Platform}.

Lemma getBBBActionURL_string (endpoint secret : value) (action params : string) :
  BBBApi._getBBBActionURL endpoint (VStr action) secret (VStr params)
  = VStr (JS.ToString endpoint ++ "api/" ++ action ++ "?" ++ params
          ++ "&checksum=" ++ sha1 (VStr (action ++ params ++ JS.ToString secret))).
Proof.
  unfold BBBApi._getBBBActionURL, BBBApi._getChecksum.
  rewrite !add_string_l. rewrite !add_string_r. simpl JS.ToString.
  now rewrite !append_assoc.
Qed.

(** C1: on strings, [_getBBBActionURL] is the concatenation
    endpoint + 'api/' + action + '?' + params + '&checksum=' +
    sha1(action + params + secret): the signature is the SHA-1 digest of
    action, params and secret concatenated, and of nothing else. *)
Theorem getBBBActionURL_signed (endpoint action secret params : string) :
  BBBApi._getBBBActionURL (VStr endpoint) (VStr action) (VStr secret) (VStr params)
  = VStr (endpoint ++ "api/" ++ action ++ "?" ++ params ++ "&checksum="
          ++ sha1 (VStr (action ++ params ++ secret)))
  /\ BBBApi._getChecksum (VStr action) (VStr secret) (VStr params)
     = VStr (sha1 (VStr (action ++ params ++ secret))).
Proof.
  split.
  - apply getBBBActionURL_string.
  - unfold BBBApi._getChecksum. rewrite !add_string_l. simpl.
    now rewrite append_assoc.
Qed.

(** C6: [_getConfig] returns an object with the two fields 'endpoint' and
    'secret', each the value of the configuration store for
    (tenantAlias, 'bbb', field); [_getVerifiedBBBEndpoint] is the
    identity, so the endpoint is not normalised. *)
Theorem getConfig_fields (tenantAlias : value) :
  JS.keys (BBBApi._getConfig tenantAlias) = ["endpoint"; "secret"]
  /\ JS.prop (BBBApi._getConfig tenantAlias) "secret"
     = BBBConfig_getValue tenantAlias "bbb" "secret"
  /\ JS.prop (BBBApi._getConfig tenantAlias) "endpoint"
     = BBBConfig_getValue tenantAlias "bbb" "endpoint"
  /\ (forall endpoint : value, BBBApi._getVerifiedBBBEndpoint endpoint = endpoint).
Proof. repeat split. Qed.

End SignerFacts.

(** ** The proxy *)

Section ProxyFacts.
Context {rt : Runtime} {pk : Packages} {S : Type}.

Lemma answer_parse (chunk : string) (meetingInfo : value) :
  answer chunk = Some meetingInfo ->
  JS.truthy (fst (parseString chunk)) = false
  /\ JS.nullish (snd (parseString chunk)) = false
  /\ JS.member (snd (parseString chunk)) "response" = meetingInfo
  /\ JS.nullish meetingInfo = false.
Proof.
  unfold answer. destruct (parseString chunk) as [err result]. simpl.
  destruct (JS.truthy err); [discriminate|].
  destruct (JS.nullish (JS.member result "response")) eqn:Hn; [discriminate|].
  intros [= <-]. repeat split; auto.
  destruct result; try reflexivity; discriminate.
Qed.

Lemma onData_error (callback : list value -> M (action S) S unit)
    (chunk : string) (s : S) :
  JS.truthy (fst (parseString chunk)) = true ->
  BBBProxy.onData callback chunk s = callback [fst (parseString chunk)] s.
Proof.
  unfold BBBProxy.onData. destruct (parseString chunk) as [err result]. simpl.
  now intros ->.
Qed.

Lemma onData_answer (callback : list value -> M (action S) S unit)
    (chunk : string) (meetingInfo : value) (s : S) :
  answer chunk = Some meetingInfo ->
  BBBProxy.onData callback chunk s
  = (ConsoleInfo (snd (parseString chunk)) :: fst (callback [VNull; meetingInfo] s),
     snd (callback [VNull; meetingInfo] s)).
Proof.
  intros H. destruct (answer_parse _ _ H) as (He & Hr & Hm & Hn).
  unfold BBBProxy.onData. destruct (parseString chunk) as [err result].
  simpl in *. rewrite He. rewrite !(get_member _ _ Hr), Hm.
  rewrite bind_emit. f_equal.
  - rewrite bind_ret, (get_member _ _ Hn), bind_ret.
    destruct (JS.loose_eq_word _ _); now rewrite bind_ret.
  - rewrite bind_ret, (get_member _ _ Hn), bind_ret.
    destruct (JS.loose_eq_word _ _); now rewrite bind_ret.
Qed.

(** Without a 'response' member the handler throws before it reaches the callback. *)
Lemma onData_no_response (callback : list value -> M (action S) S unit)
    (chunk : string) (s : S) :
  JS.truthy (fst (parseString chunk)) = false ->
  answer chunk = None ->
  BBBProxy.onData callback chunk s
  = ([ConsoleInfo (snd (parseString chunk))], Thrown TypeError).
Proof.
  unfold answer, BBBProxy.onData. destruct (parseString chunk) as [err result]. simpl.
  intros ->. destruct (JS.nullish (JS.member result "response")) eqn:Hn; [|discriminate].
  intros _. rewrite bind_emit.
  destruct (JS.nullish result) eqn:Hr.
  - now rewrite (get_nullish _ _ Hr).
  - rewrite (get_member _ _ Hr), bind_ret, (get_nullish _ _ Hn). reflexivity.
Qed.


Lemma start_executeBBBCall (url : value)
    (callback : list value -> M (action S) S unit) (s : S) :
  start (BBBProxy.executeBBBCall url callback) s
  = {| p_vars := s;
       p_trace := [HttpRequest url (BBBProxy.listeners callback)];
       p_crashed := None |}.
Proof. reflexivity. Qed.

(** The parse path of [executeBBBCall]: when the XML parse of a response
    chunk fails with an error [e], the callback is invoked once, with [e]
    alone and as it is, and no second request is sent. *)
Lemma parse_error_reaches_callback (url : value) (chunk : string)
    (e result : value) (s : S) :
  parseString chunk = (e, result) ->
  JS.truthy e = true ->
  let p := run (start (BBBProxy.executeBBBCall url report) s)
               [(0, ResponseData chunk)] in
  invocations (p_trace p) = [[e]]
  /\ request_urls (p_trace p) = [url]
  /\ p_crashed p = None.
Proof.
  intros Hparse He p.
  assert (Hp : p = {| p_vars := s;
                      p_trace := [HttpRequest url (BBBProxy.listeners report); Invoke [e]];
                      p_crashed := None |}).
  { unfold p. rewrite start_executeBBBCall.
    unfold run, deliver. simpl.
    rewrite onData_error; rewrite Hparse; [reflexivity | exact He]. }
  rewrite Hp. repeat split.
Qed.

(** C3, as the code has it: when the parse of a chunk succeeds and the
    parsed document has a 'response' member that is neither undefined nor
    null, the callback is invoked once with null and that member as it
    is, whatever its returncode. *)
Theorem answer_reaches_callback (url : value) (chunk : string)
    (meetingInfo : value) (s : S) :
  answer chunk = Some meetingInfo ->
  let p := run (start (BBBProxy.executeBBBCall url report) s)
               [(0, ResponseData chunk)] in
  invocations (p_trace p) = [[VNull; meetingInfo]]
  /\ request_urls (p_trace p) = [url]
  /\ p_crashed p = None.
Proof.
  intros Hans p.
  assert (Hp : p = {| p_vars := s;
                      p_trace := [HttpRequest url (BBBProxy.listeners report);
                                  ConsoleInfo (snd (parseString chunk));
                                  Invoke [VNull; meetingInfo]];
                      p_crashed := None |}).
  { unfold p. rewrite start_executeBBBCall.
    unfold run, deliver. simpl.
    rewrite (onData_answer _ _ _ _ Hans). reflexivity. }
  rewrite Hp. repeat split.
Qed.

End ProxyFacts.

(** C2, at a request that fails: the request for the meeting info is
    refused by the server's host (the error ECONNREFUSED arrives as the
    request's 'error' event).  The claim has the callback invoked with
    that error as its first argument; [executeBBBCall] registers a
    listener for the response only, so the callback is not invoked at
    all, with this error or any other argument, and the error is left
    unhandled. *)
Theorem http_failure_not_reported :
  let p := run (start (@BBBProxy.executeBBBCall Sample.runtime Sample.packages unit
                         (VStr "http://bbb.example.org/api/getMeetingInfo")
                         report) tt)
               [(0, RequestError (VStr "ECONNREFUSED"))] in
  invocations (p_trace p) = []
  /\ p_crashed p = Some (ErrorEvent (VStr "ECONNREFUSED"))
  /\ ~ (exists args, In args (invocations (p_trace p))
                     /\ arg 0 args = VStr "ECONNREFUSED").
Proof.
  cbv zeta. repeat split. intros (args & Hin & _). exact Hin.
Qed.

Lemma parsed_page_without_response_not_reported :
  let p := run (start (@BBBProxy.executeBBBCall Sample.runtime Sample.packages unit
                         (VStr "http://bbb.example.org/api/getMeetingInfo")
                         report) tt)
               [(0, ResponseData Sample.html_page)] in
  JS.truthy (fst (@parseString Sample.packages Sample.html_page)) = false
  /\ invocations (p_trace p) = []
  /\ p_crashed p = Some TypeError.
Proof. repeat split. Qed.

Lemma parse_error_reaches_callback_witness :
  @parseString Sample.packages "<response>" = (Sample.parse_error, VUndefined)
  /\ invocations
       (p_trace (run (start (@BBBProxy.executeBBBCall Sample.runtime Sample.packages unit
                               (VStr "u") report) tt)
                     [(0, ResponseData "<response>")]))
     = [[Sample.parse_error]].
Proof.
  split; [reflexivity|].
  apply (@parse_error_reaches_callback Sample.runtime Sample.packages unit
           (VStr "u") "<response>" Sample.parse_error VUndefined tt);
    reflexivity.
Defined.

Lemma answer_reaches_callback_witness :
  invocations
    (p_trace (run (start (@BBBProxy.executeBBBCall Sample.runtime Sample.packages unit
                            (VStr "u") report) tt)
                  [(0, ResponseData Sample.running_xml)]))
  = [[VNull; VObj [ ("returncode", VArr [VStr "SUCCESS"]);
                    ("moderatorPW", VArr [VStr "mp"]);
                    ("attendeePW", VArr [VStr "ap"]) ]]].
Proof.
  apply (@answer_reaches_callback Sample.runtime Sample.packages unit
           (VStr "u") Sample.running_xml _ tt).
  reflexivity.
Defined.

(** ** The join URL *)

Section JoinFacts.
Context {rt : Runtime} {pk : Packages} {pf : Platform}.
#[local] Arguments BBBApi._getBBBActionURL : simpl never.

Lemma onMeetingInfo_answer (config : object) (fullName meetingID meetingName : string)
    (err meetingInfo : value) (s : BBBApi.vars) :
  JS.truthy err = false -> JS.nullish meetingInfo = false ->
  let endpoint := JS.prop config "endpoint" in
  let secret := JS.prop config "secret" in
  BBBApi.onMeetingInfo config (VStr fullName) (VStr meetingID) (VStr meetingName)
    [err; meetingInfo] s
  = if Claimed.not_found meetingInfo then
      ([ ConsoleInfo meetingInfo;
         ConsoleInfo (VStr ("meetingID=" ++ meetingID));
         HttpRequest (Claimed.signed_url endpoint secret "create" ("meetingID=" ++ meetingID))
                     (BBBProxy.listeners BBBApi.onCreate);
         ConsoleInfo (VStr (Claimed.join_query meetingID fullName (BBBApi.moderatorPW s)));
         Invoke [ VNull;
                  VObj [ ("url", Claimed.signed_url endpoint secret "join"
                                   (Claimed.join_query meetingID fullName (BBBApi.moderatorPW s))) ] ] ],
       Returned (tt, s))
    else
      let pw := JS.member meetingInfo "moderatorPW" in
      ([ ConsoleInfo meetingInfo;
         ConsoleInfo (VStr (Claimed.join_query meetingID fullName pw));
         Invoke [ VNull;
                  VObj [ ("url", Claimed.signed_url endpoint secret "join"
                                   (Claimed.join_query meetingID fullName pw)) ] ] ],
       Returned (tt, {| BBBApi.moderatorPW := pw;
                        BBBApi.attendeePW := JS.member meetingInfo "attendeePW" |})).
Proof.
  intros Herr Hnn endpoint secret.
  unfold BBBApi.onMeetingInfo, Claimed.not_found, arg. cbn [nth]. cbv zeta. rewrite Herr.
  rewrite !(get_member _ _ Hnn).
  destruct (JS.loose_eq_word (JS.member meetingInfo "returncode") "FAILED") eqn:Hrc;
  [destruct (JS.loose_eq_word (JS.member meetingInfo "messageKey") "notFound") eqn:Hmk|];
  repeat (cbn; rewrite ?Hrc, ?Hmk);
  rewrite !getBBBActionURL_string, ?ToString_ToPrimitive;
  unfold Claimed.signed_url, Claimed.join_query, endpoint, secret;
  repeat (rewrite !append_assoc; cbn); reflexivity.
Qed.

Lemma onCreate_answer (err meetingInfo : value) (s : BBBApi.vars) :
  JS.truthy err = false -> JS.nullish meetingInfo = false ->
  BBBApi.onCreate [err; meetingInfo] s
  = ([ ConsoleInfo meetingInfo ],
     Returned (tt, {| BBBApi.moderatorPW := JS.member meetingInfo "moderatorPW";
                      BBBApi.attendeePW := JS.member meetingInfo "attendeePW" |})).
Proof.
  intros Herr Hnn. unfold BBBApi.onCreate, arg. cbn [nth]. cbv zeta. rewrite Herr.
  rewrite !(get_member _ _ Hnn). reflexivity.
Qed.

Section OneActivation.
Variables (t meetingProfile user : object).

Local Abbreviation secret := (Activation.secret t).
Local Abbreviation endpoint := (Activation.endpoint t).
Local Abbreviation meetingID := (Activation.meetingID t meetingProfile).
Local Abbreviation fullName := (Activation.fullName user).
Local Abbreviation meetingName := (Activation.meetingName meetingProfile).
Local Abbreviation firstModeratorPW := (Activation.firstModeratorPW t meetingProfile).
Local Abbreviation firstAttendeePW := (Activation.firstAttendeePW t meetingProfile).
Local Abbreviation asked := (Activation.asked t meetingProfile user).
Local Abbreviation infoURL := (Activation.getMeetingInfoURL t meetingProfile).
Local Abbreviation createURL := (Activation.getCreateMeetingURL t meetingProfile).
Local Abbreviation joinURL := (Activation.joinURL t meetingProfile user).
Local Abbreviation onInfo :=
  (BBBProxy.listeners
     (BBBApi.onMeetingInfo (BBBApi._getConfig (JS.prop t "alias"))
        (VStr fullName) (VStr meetingID) (VStr meetingName))).

Lemma start_getJoinMeetingURL :
  asked
  = {| p_vars := {| BBBApi.moderatorPW := VStr firstModeratorPW;
                    BBBApi.attendeePW := VStr firstAttendeePW |};
       p_trace := [ ConsoleInfo (VStr ("meetingID=" ++ meetingID));
                    HttpRequest infoURL onInfo ];
       p_crashed := None |}.
Proof.
  unfold Activation.asked, start, BBBApi.getJoinMeetingURL. cbn.
  rewrite !getBBBActionURL_string, ?ToString_ToPrimitive.
  unfold Activation.firstModeratorPW, Activation.firstAttendeePW,
    Activation.getMeetingInfoURL, Activation.meetingID, Activation.fullName,
    Activation.meetingName, Activation.secret, Activation.endpoint,
    Claimed.signed_url.
  rewrite !add_string_l. reflexivity.
Qed.

(** The process once the answer to getMeetingInfo has been handled. *)
Lemma run_meetingInfo (chunk : string) (meetingInfo : value) :
  answer chunk = Some meetingInfo ->
  run asked [(0, ResponseData chunk)]
  = if Claimed.not_found meetingInfo then
      {| p_vars := {| BBBApi.moderatorPW := VStr firstModeratorPW;
                      BBBApi.attendeePW := VStr firstAttendeePW |};
         p_trace :=
           [ ConsoleInfo (VStr ("meetingID=" ++ meetingID));
             HttpRequest infoURL onInfo;
             ConsoleInfo (snd (parseString chunk));
             ConsoleInfo meetingInfo;
             ConsoleInfo (VStr ("meetingID=" ++ meetingID));
             HttpRequest createURL (BBBProxy.listeners BBBApi.onCreate);
             ConsoleInfo (VStr (Claimed.join_query meetingID fullName (VStr firstModeratorPW)));
             Invoke [ VNull; VObj [ ("url", joinURL (VStr firstModeratorPW)) ] ] ];
         p_crashed := None |}
    else
      {| p_vars := {| BBBApi.moderatorPW := JS.member meetingInfo "moderatorPW";
                      BBBApi.attendeePW := JS.member meetingInfo "attendeePW" |};
         p_trace :=
           [ ConsoleInfo (VStr ("meetingID=" ++ meetingID));
             HttpRequest infoURL onInfo;
             ConsoleInfo (snd (parseString chunk));
             ConsoleInfo meetingInfo;
             ConsoleInfo (VStr (Claimed.join_query meetingID fullName
                                  (JS.member meetingInfo "moderatorPW")));
             Invoke [ VNull;
                      VObj [ ("url", joinURL (JS.member meetingInfo "moderatorPW")) ] ] ];
         p_crashed := None |}.
Proof.
  intros Hans. destruct (answer_parse _ _ Hans) as (_ & _ & _ & Hnn).
  rewrite start_getJoinMeetingURL.
  unfold run, deliver. cbn [fold_left fst snd p_crashed p_trace p_vars requests nth_error].
  cbn [BBBProxy.listeners].
  rewrite (onData_answer _ _ _ _ Hans).
  rewrite (onMeetingInfo_answer _ _ _ _ VNull meetingInfo _ eq_refl Hnn).
  destruct (Claimed.not_found meetingInfo); reflexivity.
Qed.

Lemma run_parse_error (chunk : string) :
  JS.truthy (fst (parseString chunk)) = true ->
  request_urls (p_trace (run asked [(0, ResponseData chunk)])) = [infoURL]
  /\ invocations (p_trace (run asked [(0, ResponseData chunk)]))
     = [[fst (parseString chunk)]].
Proof.
  intros Herr. rewrite start_getJoinMeetingURL.
  unfold run, deliver. cbn [fold_left fst snd p_crashed p_trace p_vars requests nth_error].
  cbn [BBBProxy.listeners].
  rewrite (onData_error _ _ _ Herr).
  unfold BBBApi.onMeetingInfo, arg. cbn [nth]. cbv zeta. rewrite Herr.
  split; reflexivity.
Qed.

Lemma run_no_response (chunk : string) :
  JS.truthy (fst (parseString chunk)) = false ->
  answer chunk = None ->
  request_urls (p_trace (run asked [(0, ResponseData chunk)])) = [infoURL]
  /\ invocations (p_trace (run asked [(0, ResponseData chunk)])) = []
  /\ p_crashed (run asked [(0, ResponseData chunk)]) = Some TypeError.
Proof.
  intros Herr Hnone. rewrite start_getJoinMeetingURL.
  unfold run, deliver. cbn [fold_left fst snd p_crashed p_trace p_vars requests nth_error].
  cbn [BBBProxy.listeners].
  rewrite (onData_no_response _ _ _ Herr Hnone).
  repeat split.
Qed.

(** C4: once the getMeetingInfo call has returned without error, the
    callback is invoked with null and an object whose only field 'url' is
    the signed join URL, the query string holding meetingID, fullName and
    password in that order; it stays the only invocation when the create
    call, if there is one, returns without error too. *)
Theorem join_url_reported (chunk : string) (meetingInfo : value) :
  answer chunk = Some meetingInfo ->
  let password :=
    if Claimed.not_found meetingInfo then VStr firstModeratorPW
    else JS.member meetingInfo "moderatorPW" in
  let p := run asked [(0, ResponseData chunk)] in
  (invocations (p_trace p) = [[VNull; VObj [ ("url", joinURL password) ]]]
   /\ p_crashed p = None)
  /\ forall (chunk' : string) (created : value),
       answer chunk' = Some created ->
       let p' := run asked [(0, ResponseData chunk); (1, ResponseData chunk')] in
       invocations (p_trace p') = [[VNull; VObj [ ("url", joinURL password) ]]]
       /\ p_crashed p' = None.
Proof.
  intros Hans password p.
  pose proof (run_meetingInfo _ _ Hans) as Hrun. fold p in Hrun.
  split.
  - rewrite Hrun. unfold password.
    destruct (Claimed.not_found meetingInfo); split; reflexivity.
  - intros chunk' created Hans' p'.
    destruct (answer_parse _ _ Hans') as (_ & _ & _ & Hnn').
    assert (Hp' : p' = deliver p 1 (ResponseData chunk')) by reflexivity.
    rewrite Hp', Hrun. unfold password.
    destruct (Claimed.not_found meetingInfo).
    + unfold deliver.
      cbn [fst snd p_crashed p_trace p_vars requests nth_error BBBProxy.listeners].
      rewrite (onData_answer _ _ _ _ Hans').
      rewrite (onCreate_answer VNull created _ eq_refl Hnn').
      split; reflexivity.
    + split; reflexivity.
Qed.

(** C5: the signed 'create' call goes out exactly when the answer to
    getMeetingInfo has returncode == "FAILED" and messageKey ==
    "notFound"; on every other answer no request follows the first one
    and the join URL is built and reported at once. *)
Theorem create_iff_not_found (chunk : string) :
  let p := run asked [(0, ResponseData chunk)] in
  let wanted :=
    match answer chunk with
    | Some meetingInfo => Claimed.not_found meetingInfo
    | None => false
    end in
  request_urls (p_trace p) = infoURL :: (if wanted then [createURL] else [])
  /\ forall meetingInfo : value,
       answer chunk = Some meetingInfo ->
       Claimed.not_found meetingInfo = false ->
       p_trace p
       = (p_trace asked
          ++ [ ConsoleInfo (snd (parseString chunk));
               ConsoleInfo meetingInfo;
               ConsoleInfo (VStr (Claimed.join_query meetingID fullName
                                    (JS.member meetingInfo "moderatorPW")));
               Invoke [ VNull;
                        VObj [ ("url", joinURL (JS.member meetingInfo "moderatorPW")) ] ] ])%list.
Proof.
  intros p wanted. split.
  - unfold wanted, p. destruct (answer chunk) as [meetingInfo|] eqn:Hans.
    + rewrite (run_meetingInfo _ _ Hans).
      destruct (Claimed.not_found meetingInfo); reflexivity.
    + destruct (JS.truthy (fst (parseString chunk))) eqn:Herr.
      * apply (run_parse_error _ Herr).
      * apply (run_no_response _ Herr Hans).
  - intros meetingInfo Hans Hnot. unfold p.
    rewrite (run_meetingInfo _ _ Hans), Hnot.
    rewrite start_getJoinMeetingURL. reflexivity.
Qed.

End OneActivation.

(** C8: when the request to BigBlueButton goes out, attendeePW is the
    digest of the tenant's secret alone, sha1(config.secret) for a secret
    that is a string: substring(8,8) is empty on every string, so the
    meeting profile and the user play no part. *)
Theorem attendeePW_is_digest_of_secret (t meetingProfile user : object) :
  let asked := Activation.asked t meetingProfile user in
  BBBApi.attendeePW (p_vars asked)
  = VStr (sha1 (VStr (JS.ToString (Activation.secret t))))
  /\ (forall s : string,
        Activation.secret t = VStr s ->
        BBBApi.attendeePW (p_vars asked) = VStr (sha1 (Activation.secret t)))
  /\ request_urls (p_trace asked) = [Activation.getMeetingInfoURL t meetingProfile]
  /\ p_crashed asked = None
  /\ (forall id : string, JS.substring id 8 8 = "")
  /\ forall meetingProfile' user' : object,
       BBBApi.attendeePW (p_vars (Activation.asked t meetingProfile' user'))
       = BBBApi.attendeePW (p_vars asked).
Proof.
  intros asked.
  assert (Hpw : forall mp, Activation.firstAttendeePW t mp
                           = sha1 (VStr (JS.ToString (Activation.secret t)))).
  { intros mp. unfold Activation.firstAttendeePW.
    rewrite substring_empty_range, add_string_l. reflexivity. }
  unfold asked. rewrite start_getJoinMeetingURL.
  cbn [p_vars p_trace p_crashed BBBApi.attendeePW request_urls requests map fst].
  rewrite Hpw. repeat split.
  - intros s Hs. now rewrite Hs.
  - intros id. apply substring_empty_range.
  - intros mp' user'. rewrite start_getJoinMeetingURL.
    cbn [p_vars BBBApi.attendeePW]. now rewrite Hpw.
Qed.

End JoinFacts.

Lemma join_url_reported_witness :
  @answer Sample.packages Sample.running_xml
  = Some (VObj [ ("returncode", VArr [VStr "SUCCESS"]);
                 ("moderatorPW", VArr [VStr "mp"]);
                 ("attendeePW", VArr [VStr "ap"]) ])
  /\ invocations
       (p_trace
          (run (start (@BBBApi.getJoinMeetingURL Sample.runtime Sample.packages
                         Sample.platform Sample.ctx
                         (VObj Sample.meetingProfile) (VObj Sample.user))
                      BBBApi.hoisted)
               [(0, ResponseData Sample.running_xml)]))
     = [[ VNull;
          VObj [ ("url",
                  VStr "http://bbb.example.org/api/join?meetingID=sha1(m:cam:x1s3cret)&fullName=Ada&password=mp&checksum=sha1(joinmeetingID=sha1(m:cam:x1s3cret)&fullName=Ada&password=mps3cret)") ] ]].
Proof.
  split; [reflexivity|].
  exact (proj1 (proj1 (@join_url_reported Sample.runtime Sample.packages Sample.platform
                         [ ("alias", VStr "cam") ] Sample.meetingProfile Sample.user
                         Sample.running_xml _ eq_refl))).
Defined.

Lemma create_iff_not_found_witness :
  request_urls
    (p_trace
       (run (start (@BBBApi.getJoinMeetingURL Sample.runtime Sample.packages
                      Sample.platform Sample.ctx
                      (VObj Sample.meetingProfile) (VObj Sample.user))
                   BBBApi.hoisted)
            [(0, ResponseData Sample.notFound_xml)]))
  = [ VStr "http://bbb.example.org/api/getMeetingInfo?meetingID=sha1(m:cam:x1s3cret)&checksum=sha1(getMeetingInfomeetingID=sha1(m:cam:x1s3cret)s3cret)";
      VStr "http://bbb.example.org/api/create?meetingID=sha1(m:cam:x1s3cret)&checksum=sha1(createmeetingID=sha1(m:cam:x1s3cret)s3cret)" ]
  /\ invocations
       (p_trace
          (run (start (@BBBApi.getJoinMeetingURL Sample.runtime Sample.packages
                         Sample.platform Sample.ctx
                         (VObj Sample.meetingProfile) (VObj Sample.user))
                      BBBApi.hoisted)
               [(0, ResponseData Sample.running_xml)]))
     = [[ VNull;
          VObj [ ("url",
                  VStr "http://bbb.example.org/api/join?meetingID=sha1(m:cam:x1s3cret)&fullName=Ada&password=mp&checksum=sha1(joinmeetingID=sha1(m:cam:x1s3cret)&fullName=Ada&password=mps3cret)") ] ]].
Proof.
  split.
  - exact (proj1 (@create_iff_not_found Sample.runtime Sample.packages Sample.platform
                    [ ("alias", VStr "cam") ] Sample.meetingProfile Sample.user
                    Sample.notFound_xml)).
  - exact (f_equal invocations
             (proj2 (@create_iff_not_found Sample.runtime Sample.packages Sample.platform
                       [ ("alias", VStr "cam") ] Sample.meetingProfile Sample.user
                       Sample.running_xml) _ eq_refl eq_refl)).
Defined.

Lemma attendeePW_is_digest_of_secret_witness :
  Activation.secret (pf := Sample.platform) [ ("alias", VStr "cam") ] = VStr "s3cret"
  /\ BBBApi.attendeePW
       (p_vars (start (@BBBApi.getJoinMeetingURL Sample.runtime Sample.packages
                         Sample.platform Sample.ctx
                         (VObj Sample.meetingProfile) (VObj Sample.user))
                      BBBApi.hoisted))
     = VStr "sha1(s3cret)".
Proof.
  split; [reflexivity|].
  exact (proj1 (proj2 (@attendeePW_is_digest_of_secret Sample.runtime Sample.packages
                         Sample.platform [ ("alias", VStr "cam") ] Sample.meetingProfile
                         Sample.user))
               "s3cret" eq_refl).
Defined.

(** On the sample meeting that BigBlueButton does not know yet: the join
    URL is reported when the create call goes out, with the first
    moderator password; what the create call brings afterwards is stored
    or, when it is an error, reported by a second invocation. *)

Example join_url_precedes_create :
  let p := run (Activation.asked (rt := Sample.runtime) (pk := Sample.packages)
                  (pf := Sample.platform)
                  [ ("alias", VStr "cam") ] Sample.meetingProfile Sample.user)
               [ (0, ResponseData Sample.notFound_xml);
                 (1, ResponseData Sample.running_xml) ] in
  invocations (p_trace p)
  = [[ VNull;
       VObj [ ("url",
               VStr "http://bbb.example.org/api/join?meetingID=sha1(m:cam:x1s3cret)&fullName=Ada&password=sha1(sha1(m:cs3cret)&checksum=sha1(joinmeetingID=sha1(m:cam:x1s3cret)&fullName=Ada&password=sha1(sha1(m:cs3cret)s3cret)") ] ]]
  /\ p_vars p = {| BBBApi.moderatorPW := VArr [VStr "mp"];
                   BBBApi.attendeePW := VArr [VStr "ap"] |}.
Proof. split; reflexivity. Qed.

Example create_error_follows_join :
  let p := run (Activation.asked (rt := Sample.runtime) (pk := Sample.packages)
                  (pf := Sample.platform)
                  [ ("alias", VStr "cam") ] Sample.meetingProfile Sample.user)
               [ (0, ResponseData Sample.notFound_xml);
                 (1, ResponseData "<response>") ] in
  map (arg 0) (invocations (p_trace p)) = [ VNull; Sample.parse_error ].
Proof. reflexivity. Qed.

(** ** The search hooks *)

Section SearchFacts.
Context {rt : Runtime} {pk : Packages} {pf : Platform}.

Lemma pop_snoc {A} (l : list A) (x : A) : JS.pop (l ++ [x])%list = Some (x, l).
Proof. unfold JS.pop. rewrite rev_app_distr. simpl. now rewrite rev_involutive. Qed.

Lemma produce_nil (docs errs : value) :
  Search._produceMeetingMessageDocuments [] docs errs
  = Search.callback [errs; JS.or docs (VArr [])].
Proof.
  simp _produceMeetingMessageDocuments. reflexivity.
Qed.

Lemma produce_snoc (l : list value) (resource : object) (docs errs : value) (u : unit) :
  Search._produceMeetingMessageDocuments (l ++ [VObj resource])%list docs errs u
  = (Claimed.call_for resource :: fst (Search._produceMeetingMessageDocuments l
                                 (fst (Claimed.gather (docs, errs) resource))
                                 (snd (Claimed.gather (docs, errs) resource)) u),
     snd (Search._produceMeetingMessageDocuments l
                                 (fst (Claimed.gather (docs, errs) resource))
                                 (snd (Claimed.gather (docs, errs) resource)) u)).
Proof.
  rewrite (Search._produceMeetingMessageDocuments_equation_1 (l ++ [VObj resource])%list).
  destruct (inspect (JS.pop (l ++ [VObj resource])%list)) as [[[x rest]|] popped].
  2:{ pose proof popped as Hp. rewrite pop_snoc in Hp. discriminate. }
  pose proof popped as Hp. rewrite pop_snoc in Hp. injection Hp as <- <-.
  unfold Claimed.gather, Claimed.call_for. cbn -[Search._produceMeetingMessageDocuments].
  destruct (JS.truthy (JS.prop resource "messages")).
  - cbn -[Search._produceMeetingMessageDocuments].
    now destruct (Search._produceMeetingMessageDocuments l _ _ u).
  - cbn -[Search._produceMeetingMessageDocuments].
    destruct (createAllMessageSearchDocuments _ _ _) as [err documents].
    cbn -[Search._produceMeetingMessageDocuments].
    now destruct (Search._produceMeetingMessageDocuments l _ _ u).
Qed.

Lemma produce_run (resources : list object) :
  forall (docs errs : value) (u : unit),
  Search._produceMeetingMessageDocuments (map VObj resources) docs errs u
  = ((map Claimed.call_for (rev resources)
      ++ [Callback [snd (fold_left Claimed.gather (rev resources) (docs, errs));
                    JS.or (fst (fold_left Claimed.gather (rev resources) (docs, errs))) (VArr [])]])%list,
     Returned (tt, u)).
Proof.
  induction resources as [|resource l IH] using rev_ind; intros docs errs u.
  - simpl. rewrite produce_nil. reflexivity.
  - rewrite map_app. simpl map. rewrite produce_snoc, IH.
    rewrite rev_app_distr. simpl. destruct (Claimed.gather (docs, errs) resource). reflexivity.
Qed.

Lemma callbacks_after_calls (l : list object) (last : list call) :
  callbacks (map Claimed.call_for l ++ last)%list = callbacks last.
Proof.
  induction l as [|r l IH]; [reflexivity|].
  simpl. unfold Claimed.call_for at 1. now destruct (JS.truthy _).
Qed.

(** C10: on every array of resources [_produceMeetingMessageDocuments]
    returns; it serves the resources from the last to the first, each
    [pop] taking exactly the last element, and then invokes the callback
    exactly once, with the errors and the documents gathered by
    [_.union] over the resources in that order. *)
Theorem message_documents_once (resources : list object) :
  let r := Search._produceMeetingMessageDocuments (map VObj resources)
             VUndefined VUndefined tt in
  let acc := fold_left Claimed.gather (rev resources) (VUndefined, VUndefined) in
  trace_of r
  = (map Claimed.call_for (rev resources) ++ [Callback [snd acc; JS.or (fst acc) (VArr [])]])%list
  /\ callbacks (trace_of r) = [[snd acc; JS.or (fst acc) (VArr [])]]
  /\ threw r = None
  /\ (forall (l : list value) (x : value),
        JS.pop (l ++ [x])%list = Some (x, l)
        /\ S (List.length l) = List.length (l ++ [x])%list).
Proof.
  intros r acc. unfold r. rewrite produce_run. fold acc.
  unfold trace_of, threw. simpl fst. simpl snd.
  repeat split.
  - apply callbacks_after_calls.
  - apply pop_snoc.
  - rewrite length_app. simpl. lia.
Qed.

Lemma each_sort_resource (resources : list object) :
  forall (ids : list value) (u : unit),
  Eff.each (map VObj resources) Search.sort_resource ids u
  = if existsb Claimed.has_meeting resources
    then ([], Thrown (ReferenceError "dicussions"))
    else ([], Returned ((ids ++ map (fun r => JS.prop r "id") resources)%list, u)).
Proof.
  induction resources as [|r l IH]; intros ids u.
  - simpl. unfold Eff.ret. now rewrite app_nil_r.
  - simpl. unfold Claimed.has_meeting at 1.
    unfold Eff.bind at 1. unfold Search.sort_resource at 1. cbn.
    destruct (JS.truthy (JS.prop r "meeting")); cbn; [reflexivity|].
    rewrite IH. rewrite <- app_assoc. simpl.
    destruct (existsb Claimed.has_meeting l); reflexivity.
Qed.

(** C9: when no resource has a truthy 'meeting', [_getMeetings] does not
    throw: it hands the ids, in input order, to
    [MeetingsDAO.getMeetingsById], or calls back with null and an empty
    list when there is no id.  When some resource has a truthy 'meeting'
    it throws ReferenceError for 'dicussions' before anything else
    happens, and so does [_produceMeetingSearchDocuments], whose
    continuation never runs. *)
Theorem getMeetings_cases (resources : list object)
    (k : list value -> M call unit unit) :
  Search._getMeetings (map VObj resources) k tt
  = (if existsb Claimed.has_meeting resources
     then ([], Thrown (ReferenceError "dicussions"))
     else if JS.isEmpty resources then k [VNull; VArr []] tt
     else ([GetMeetingsById (VArr (map (fun r => JS.prop r "id") resources)) VNull k],
           Returned (tt, tt)))
  /\ Search._produceMeetingSearchDocuments (map VObj resources) tt
     = (if existsb Claimed.has_meeting resources
        then ([], Thrown (ReferenceError "dicussions"))
        else if JS.isEmpty resources then ([Callback []], Returned (tt, tt))
        else ([GetMeetingsById (VArr (map (fun r => JS.prop r "id") resources)) VNull
                 Search.onMeetings],
              Returned (tt, tt))).
Proof.
  assert (H : forall k, Search._getMeetings (map VObj resources) k tt
  = (if existsb Claimed.has_meeting resources
     then ([], Thrown (ReferenceError "dicussions"))
     else if JS.isEmpty resources then k [VNull; VArr []] tt
     else ([GetMeetingsById (VArr (map (fun r => JS.prop r "id") resources)) VNull k],
           Returned (tt, tt)))).
  { intros k0. unfold Search._getMeetings. cbv zeta. unfold Eff.bind at 1.
    rewrite each_sort_resource.
    destruct (existsb Claimed.has_meeting resources); [reflexivity|].
    simpl app. destruct resources as [|r l]; simpl.
    - now destruct (k0 _ tt).
    - reflexivity. }
  split; [apply H|].
  unfold Search._produceMeetingSearchDocuments. rewrite H.
  destruct (existsb Claimed.has_meeting resources); [reflexivity|].
  destruct resources; reflexivity.
Qed.

Lemma truthy_not_nullish (v : value) : JS.truthy v = true -> JS.nullish v = false.
Proof. destruct v; simpl; congruence. Qed.

(** C7: for a meeting with a tenant the document has resourceType
    'meeting', the id and the tenant alias of the meeting, its
    displayName as q_high and sort, the full text as q_low, the
    lastModified under _extra, and a description exactly when the
    meeting's description is truthy. *)
Theorem meeting_search_document (meeting : object) :
  JS.nullish (JS.prop meeting "tenant") = false ->
  exists doc : object,
    Search._produceMeetingSearchDocument (VObj meeting) tt = ([], Returned (VObj doc, tt))
    /\ JS.prop doc "resourceType" = VStr "meeting"
    /\ JS.prop doc "id" = JS.prop meeting "id"
    /\ JS.prop doc "tenantAlias" = JS.member (JS.prop meeting "tenant") "alias"
    /\ JS.prop doc "q_high" = JS.prop meeting "displayName"
    /\ JS.prop doc "sort" = JS.prop meeting "displayName"
    /\ JS.prop doc "q_low"
       = VStr (Claimed.full_text (JS.prop meeting "displayName") (JS.prop meeting "description"))
    /\ JS.member (JS.prop doc "_extra") "lastModified" = JS.prop meeting "lastModified"
    /\ JS.hasOwnProperty doc "description" = JS.truthy (JS.prop meeting "description")
    /\ (JS.truthy (JS.prop meeting "description") = true ->
        JS.prop doc "description" = JS.prop meeting "description").
Proof.
  intros Ht.
  unfold Search._produceMeetingSearchDocument.
  cbn. rewrite (get_member _ _ Ht). cbn.
  unfold Claimed.full_text, JS.compact. simpl filter.
  destruct (JS.truthy (JS.prop meeting "description")) eqn:Hd;
    destruct (JS.truthy (JS.prop meeting "displayName")) eqn:Hn;
    eexists; (split; [reflexivity|]); cbn;
    try rewrite (truthy_not_nullish _ Hd); try rewrite (truthy_not_nullish _ Hn);
    repeat split; try discriminate.
Qed.
End SearchFacts.

Lemma meeting_search_document_witness :
  exists doc : object,
    @Search._produceMeetingSearchDocument Sample.runtime (VObj Sample.meeting) tt
    = ([], Returned (VObj doc, tt))
    /\ JS.prop doc "tenantAlias" = VStr "cam"
    /\ JS.prop doc "q_low" = VStr "Weekly sync Planning"
    /\ JS.hasOwnProperty doc "description" = true.
Proof.
  destruct (@meeting_search_document Sample.runtime Sample.meeting eq_refl)
    as (doc & Hrun & _ & _ & Halias & _ & _ & Hlow & _ & Hdesc & _).
  exists doc. repeat split; assumption.
Defined.

(** Two sample resources, the first with its messages at hand: the second
    is served first. *)
Example message_documents_example :
  trace_of
    (Search._produceMeetingMessageDocuments (pk := Sample.packages)
       (pf := Sample.platform)
       [ VObj [ ("id", VStr "m1"); ("messages", VArr [VStr "hi"]) ];
         VObj [ ("id", VStr "m2") ] ]
       VUndefined VUndefined tt)
  = [ CreateAllMessageSearchDocuments (VStr "meeting_message") (VStr "m2") (VStr "m2");
      CreateMessageSearchDocuments (VStr "meeting_message") (VStr "m1") (VArr [VStr "hi"]);
      Callback [ VUndefined;
                 VArr [ VObj [ ("id", VStr "m2") ];
                        VObj [ ("id", VStr "m1"); ("body", VStr "hi") ] ] ] ].
Proof. vm_compute. reflexivity. Qed.

Example embedded_meeting_throws :
  Search._produceMeetingSearchDocuments (rt := Sample.runtime)
    [ VObj [ ("id", VStr "m1") ];
      VObj [ ("id", VStr "m2"); ("meeting", VObj Sample.meeting) ] ] tt
  = ([], Thrown (ReferenceError "dicussions")).
Proof. reflexivity. Qed.

(** * Further properties *)

(** ** The query string *)

Section QueryFacts.
Context {rt : Runtime} {pk : Packages} {pf : Platform}.

Lemma append_not_empty (a b : string) : b <> "" -> a ++ b <> "".
Proof.
  intros Hb H. destruct a; simpl in H; [contradiction | discriminate].
Qed.

Lemma pair_text_not_empty (params : object) (param : string) :
  Observed.pair_text params param <> "".
Proof.
  unfold Observed.pair_text. apply append_not_empty. discriminate.
Qed.

Lemma concat_merge (sep a b : string) (l : list string) :
  String.concat sep (a :: b :: l) = String.concat sep ((a ++ sep ++ b) :: l).
Proof.
  destruct l as [|c l]; simpl; [reflexivity|].
  now rewrite !append_assoc.
Qed.

Lemma In_insert_index (x y : N * string) (l : list (N * string)) :
  In x (JS.insert_index y l) <-> x = y \/ In x l.
Proof.
  induction l as [|z l IH]; simpl.
  - intuition congruence.
  - destruct (N.leb (fst y) (fst z)); simpl; rewrite ?IH; intuition congruence.
Qed.

Lemma In_ascending (x : N * string) (l : list (N * string)) :
  In x (JS.ascending l) <-> In x l.
Proof.
  induction l as [|y l IH]; simpl; [reflexivity|].
  rewrite In_insert_index, IH. intuition congruence.
Qed.

Lemma In_index_keys (n : N) (k : string) (ks : list string) :
  In (n, k) (JS.index_keys ks) <-> In k ks /\ JS.index_of_key k = Some n.
Proof.
  induction ks as [|k' ks IH]; simpl; [tauto|].
  destruct (JS.index_of_key k') as [n'|] eqn:Hk'; simpl; rewrite IH.
  - split.
    + intros [H|[H1 H2]]; [injection H as -> ->; auto | auto].
    + intros [[->|H1] H2]; [left; congruence | auto].
  - split.
    + intros [H1 H2]; auto.
    + intros [[->|H1] H2]; [congruence | auto].
Qed.

(** [for ... in] visits the own keys, all of them and no other. *)
Lemma for_in_keys (params : object) (k : string) :
  In k (JS.for_in params) <-> In k (JS.keys params).
Proof.
  unfold JS.for_in, JS.name_keys. rewrite in_app_iff, in_map_iff, filter_In. split.
  - intros [[[n k'] [Hk Hin]]|[Hin _]]; [|exact Hin].
    simpl in Hk. subst k'. now apply In_ascending, In_index_keys in Hin.
  - intros Hin. destruct (JS.index_of_key k) as [n|] eqn:Hk.
    + left. exists (n, k). split; [reflexivity|]. now apply In_ascending, In_index_keys.
    + right. auto.
Qed.

Lemma hasOwnProperty_keys (params : object) (k : string) :
  JS.hasOwnProperty params k = true <-> In k (JS.keys params).
Proof.
  induction params as [|[k' v] params IH]; simpl.
  - split; [discriminate | contradiction].
  - rewrite orb_true_iff, IH, String.eqb_eq. tauto.
Qed.

Lemma qs_turn_own (params : object) (qs param : string) (s : BBBApi.vars) :
  JS.hasOwnProperty params "hasOwnProperty" = false ->
  JS.hasOwnProperty params param = true ->
  BBBApi.qs_turn params qs param s
  = ([], Returned ((if String.eqb qs "" then Observed.pair_text params param
                    else qs ++ "&" ++ Observed.pair_text params param), s)).
Proof.
  intros Hno Hown. unfold BBBApi.qs_turn, BBBApi.hasOwn, Observed.pair_text.
  rewrite Hno. unfold Eff.bind, Eff.ret. rewrite Hown. cbv beta iota.
  rewrite !add_string_l. simpl JS.ToString.
  destruct (String.eqb_spec qs "") as [->|Hne]; simpl.
  - now rewrite append_assoc.
  - now rewrite !append_assoc.
Qed.

Lemma qs_turn_throws (params : object) (qs param : string) (s : BBBApi.vars) :
  JS.hasOwnProperty params "hasOwnProperty" = true ->
  BBBApi.qs_turn params qs param s = ([], Thrown TypeError).
Proof.
  intros Hown. unfold BBBApi.qs_turn, BBBApi.hasOwn. rewrite Hown. reflexivity.
Qed.

Lemma qs_each (params : object) (s : BBBApi.vars) (rest : list string) :
  JS.hasOwnProperty params "hasOwnProperty" = false ->
  (forall k, In k rest -> JS.hasOwnProperty params k = true) ->
  forall qs : string,
  qs <> "" ->
  Eff.each rest (BBBApi.qs_turn params) qs s
  = ([], Returned (String.concat "&" (qs :: map (Observed.pair_text params) rest), s)).
Proof.
  intros Hno. induction rest as [|k rest IH]; intros Hown qs Hqs.
  - reflexivity.
  - cbn [Eff.each]. unfold Eff.bind. rewrite qs_turn_own by (auto; apply Hown; now left).
    destruct (String.eqb_spec qs "") as [->|_]; [contradiction|].
    rewrite IH.
    + simpl map. now rewrite concat_merge.
    + intros k' Hk'. apply Hown. now right.
    + apply append_not_empty, append_not_empty, pair_text_not_empty.
Qed.

Lemma query_string_of (params : object) (s : BBBApi.vars) :
  JS.hasOwnProperty params "hasOwnProperty" = false ->
  BBBApi._getQueryStringParams params s
  = ([ConsoleInfo (VStr (String.concat "&" (map (Observed.pair_text params) (JS.for_in params))))],
     Returned (VStr (String.concat "&" (map (Observed.pair_text params) (JS.for_in params))), s)).
Proof.
  intros Hno.
  assert (Hq : Eff.each (JS.for_in params) (BBBApi.qs_turn params) "" s
               = ([], Returned (String.concat "&"
                                  (map (Observed.pair_text params) (JS.for_in params)), s))).
  { assert (Hown : forall k, In k (JS.for_in params) -> JS.hasOwnProperty params k = true).
    { intros k Hk. now apply hasOwnProperty_keys, for_in_keys. }
    destruct (JS.for_in params) as [|k rest]; [reflexivity|].
    cbn [Eff.each]. unfold Eff.bind. rewrite qs_turn_own by (auto; apply Hown; now left).
    simpl String.eqb. cbv iota.
    rewrite qs_each; [reflexivity | exact Hno | | apply pair_text_not_empty].
    intros k' Hk'. apply Hown. now right. }
  unfold BBBApi._getQueryStringParams, Eff.bind at 1. rewrite Hq. reflexivity.
Qed.

Lemma query_string_throws (params : object) (s : BBBApi.vars) :
  JS.hasOwnProperty params "hasOwnProperty" = true ->
  BBBApi._getQueryStringParams params s = ([], Thrown TypeError).
Proof.
  intros Hown.
  assert (Hin : In "hasOwnProperty" (JS.for_in params)).
  { now apply for_in_keys, hasOwnProperty_keys. }
  unfold BBBApi._getQueryStringParams, Eff.bind at 1.
  destruct (JS.for_in params) as [|k rest]; [contradiction|].
  cbn [Eff.each]. unfold Eff.bind. now rewrite qs_turn_throws.
Qed.

(** X1: for every object without an own property named hasOwnProperty,
    [_getQueryStringParams] returns the pairs key=value of its own
    properties, in the order in which [for ... in] visits them (array-index
    keys first, ascending, then the others as inserted), joined by '&'
    (the empty string for an object without properties), and logs that
    string once; for an object with such a property it throws a TypeError
    and logs nothing. *)
Theorem query_string_pairs (params : object) (s : BBBApi.vars) :
  let qs := String.concat "&" (map (Observed.pair_text params) (JS.for_in params)) in
  BBBApi._getQueryStringParams params s
  = if JS.hasOwnProperty params "hasOwnProperty"
    then ([], Thrown TypeError)
    else ([ConsoleInfo (VStr qs)], Returned (VStr qs, s)).
Proof.
  intros qs. unfold qs.
  destruct (JS.hasOwnProperty params "hasOwnProperty") eqn:Hown.
  - now apply query_string_throws.
  - now apply query_string_of.
Qed.

(** X2: [_getQueryStringParams] escapes nothing: when [for ... in] visits
    [k] before [k'] and neither is named hasOwnProperty, a value of [k]
    that holds '&k'=v'' gives the query string of the object with the two
    properties [k] and [k']. *)
Theorem query_string_not_escaped (k k' v v' : string) (s : BBBApi.vars) :
  k <> k' ->
  JS.for_in [ (k, VStr v); (k', VStr v') ] = [k; k'] ->
  JS.hasOwnProperty [ (k, VStr v); (k', VStr v') ] "hasOwnProperty" = false ->
  BBBApi._getQueryStringParams [ (k, VStr (v ++ "&" ++ k' ++ "=" ++ v')) ] s
  = BBBApi._getQueryStringParams [ (k, VStr v); (k', VStr v') ] s.
Proof.
  intros Hk Horder Hno.
  assert (Hno1 : JS.hasOwnProperty [ (k, VStr (v ++ "&" ++ k' ++ "=" ++ v')) ] "hasOwnProperty"
                 = false).
  { simpl in Hno |- *. apply orb_false_iff in Hno as [-> _]. reflexivity. }
  assert (Hone : JS.for_in [ (k, VStr (v ++ "&" ++ k' ++ "=" ++ v')) ] = [k]).
  { unfold JS.for_in, JS.name_keys. simpl. now destruct (JS.index_of_key k). }
  rewrite (query_string_of _ s Hno1), (query_string_of _ s Hno), Hone, Horder.
  unfold Observed.pair_text.
  cbn [map JS.prop String.concat].
  rewrite (String.eqb_refl k), (String.eqb_refl k').
  destruct (String.eqb_spec k k') as [->|_]; [contradiction|].
  simpl JS.ToString. now rewrite !append_assoc.
Qed.

End QueryFacts.

Lemma query_string_not_escaped_witness :
  @BBBApi._getQueryStringParams Sample.runtime
    [ ("fullName", VStr "Ada&password=ap") ] BBBApi.hoisted
  = @BBBApi._getQueryStringParams Sample.runtime
      [ ("fullName", VStr "Ada"); ("password", VStr "ap") ] BBBApi.hoisted.
Proof.
  apply (@query_string_not_escaped Sample.runtime "fullName" "password" "Ada" "ap");
    [discriminate | reflexivity | reflexivity].
Defined.

(** The enumeration on an object with array-index keys: they come first,
    in ascending order, whatever the order of insertion; '01' and '-1' are
    no array indices. *)
Example query_string_index_keys_first :
  @BBBApi._getQueryStringParams Sample.runtime
    [ ("b", VStr "x"); ("2", VStr "y"); ("01", VStr "w"); ("1", VStr "z") ] BBBApi.hoisted
  = ([ConsoleInfo (VStr "1=z&2=y&b=x&01=w")],
     Returned (VStr "1=z&2=y&b=x&01=w", BBBApi.hoisted)).
Proof. reflexivity. Qed.

(** An own property named hasOwnProperty shadows the method. *)
Example query_string_shadowed_method :
  @BBBApi._getQueryStringParams Sample.runtime
    [ ("meetingID", VStr "m"); ("hasOwnProperty", VStr "1") ] BBBApi.hoisted
  = ([], Thrown TypeError).
Proof. reflexivity. Qed.

(** ** The proxy over several exchanges *)

Section ExchangeFacts.
Context {rt : Runtime} {pk : Packages} {S : Type}.

Lemma run_crashed (p : process S) (schedule : list (nat * exchange)) :
  p_crashed p <> None -> run p schedule = p.
Proof.
  intros Hc. induction schedule as [|d schedule IH]; [reflexivity|].
  unfold run in *. simpl. unfold deliver at 2.
  destruct (p_crashed p); [exact IH | contradiction].
Qed.

Lemma run_cons (p : process S) (n : nat) (ev : exchange)
    (schedule : list (nat * exchange)) :
  run p ((n, ev) :: schedule) = run (deliver p n ev) schedule.
Proof. reflexivity. Qed.

Lemma requests_app (t1 t2 : list (action S)) :
  requests (t1 ++ t2) = (requests t1 ++ requests t2)%list.
Proof.
  induction t1 as [|a t1 IH]; [reflexivity|].
  destruct a; simpl; now rewrite IH.
Qed.

Lemma invocations_app (t1 t2 : list (action S)) :
  invocations (t1 ++ t2) = (invocations t1 ++ invocations t2)%list.
Proof.
  induction t1 as [|a t1 IH]; [reflexivity|].
  destruct a; simpl; now rewrite IH.
Qed.

Lemma deliver_only_request (p : process S) (url : value)
    (l : exchange -> M (action S) S unit) (ev : exchange) :
  p_crashed p = None ->
  requests (p_trace p) = [(url, l)] ->
  deliver p 0 ev = Observed.settle p (l ev (p_vars p)).
Proof.
  intros Hc Hr. unfold deliver, Observed.settle. rewrite Hc, Hr. reflexivity.
Qed.

Lemma run_heard (url : value) (evs : list exchange) :
  forall p : process S,
  p_crashed p = None ->
  requests (p_trace p) = [(url, BBBProxy.listeners report)] ->
  invocations (p_trace (run p (map (pair 0) evs)))
  = (invocations (p_trace p) ++ Observed.heard evs)%list
  /\ request_urls (p_trace (run p (map (pair 0) evs))) = [url]
  /\ p_crashed (run p (map (pair 0) evs)) = Observed.failure evs.
Proof.
  induction evs as [|ev evs IH]; intros p Hc Hr.
  - unfold run, request_urls. cbn [map fold_left Observed.heard Observed.failure].
    rewrite app_nil_r, Hr. auto.
  - cbn [map]. rewrite run_cons, (deliver_only_request p url _ ev Hc Hr).
    assert (Hstop : forall (t : list (action S)) (e : exn),
              invocations t = [] -> requests t = [] ->
              let q := run (Observed.settle p (t, Thrown e)) (map (pair 0) evs) in
              invocations (p_trace q) = (invocations (p_trace p) ++ [])%list
              /\ request_urls (p_trace q) = [url]
              /\ p_crashed q = Some e).
    { intros t e Hi Hq q. unfold q. cbn [Observed.settle].
      rewrite run_crashed by discriminate. cbn [p_trace p_crashed].
      unfold request_urls. rewrite invocations_app, requests_app, Hi, Hq, Hr. auto. }
    assert (Hgo : forall (t : list (action S)) (args : list value),
              invocations t = [args] -> requests t = [] ->
              let q := run (Observed.settle p (t, Returned (tt, p_vars p)))
                           (map (pair 0) evs) in
              invocations (p_trace q)
              = (invocations (p_trace p) ++ args :: Observed.heard evs)%list
              /\ request_urls (p_trace q) = [url]
              /\ p_crashed q = Observed.failure evs).
    { intros t args Hi Hq q. unfold q. cbn [Observed.settle].
      match goal with |- context [run ?p' _] => destruct (IH p') as (Hi' & Hu' & Hf') end.
      - reflexivity.
      - cbn [p_trace]. rewrite requests_app, Hq, app_nil_r. exact Hr.
      - cbn [p_trace] in Hi'. rewrite invocations_app, Hi, <- app_assoc in Hi'. auto. }
    destruct ev as [e|chunk]; cbn [BBBProxy.listeners Observed.heard Observed.failure].
    + apply (Hstop [] (ErrorEvent e)); reflexivity.
    + destruct (JS.truthy (fst (parseString chunk))) eqn:Herr.
      * rewrite (onData_error _ _ _ Herr). apply Hgo; reflexivity.
      * destruct (answer chunk) as [meetingInfo|] eqn:Hans.
        -- rewrite (onData_answer _ _ _ _ Hans).
           apply (Hgo [ConsoleInfo (snd (parseString chunk)); Invoke [VNull; meetingInfo]]);
             reflexivity.
        -- rewrite (onData_no_response _ _ _ Herr Hans).
           apply (Hstop [ConsoleInfo (snd (parseString chunk))]); reflexivity.
Qed.

(** X3: over any sequence of exchanges on its request, [executeBBBCall]
    invokes the callback once for each data chunk, with the parse error
    or with null and the response, in the order of arrival, until a
    request error or a chunk without response ends the process; it never
    sends a second request. *)
Theorem callback_per_exchange (url : value) (evs : list exchange) (s : S) :
  let p := run (start (BBBProxy.executeBBBCall url report) s) (map (pair 0) evs) in
  invocations (p_trace p) = Observed.heard evs
  /\ request_urls (p_trace p) = [url]
  /\ p_crashed p = Observed.failure evs.
Proof.
  intros p. unfold p. rewrite start_executeBBBCall.
  apply (run_heard url evs); reflexivity.
Qed.

End ExchangeFacts.

(** A response that arrives in two chunks is answered twice. *)
Example two_chunks_two_invocations :
  invocations
    (p_trace (run (start (@BBBProxy.executeBBBCall Sample.runtime Sample.packages unit
                            (VStr "u") report) tt)
                  [ (0, ResponseData "<response><returncode>SUCC");
                    (0, ResponseData "ESS</returncode></response>") ]))
  = [ [Sample.parse_error]; [Sample.parse_error] ].
Proof. reflexivity. Qed.

(** ** Errors on the way to the join URL *)

Section JoinErrorFacts.
Context {rt : Runtime} {pk : Packages} {pf : Platform}.

(** X4: when the context has no tenant, or the user or the meeting
    profile is undefined or null, [getJoinMeetingURL] throws a TypeError
    before anything is logged or sent, and the callback is not invoked. *)
Theorem join_needs_objects (ctx : Context) (meetingProfile user : value) :
  JS.nullish (tenant ctx) || JS.nullish user || JS.nullish meetingProfile = true ->
  start (BBBApi.getJoinMeetingURL ctx meetingProfile user) BBBApi.hoisted
  = {| p_vars := BBBApi.hoisted; p_trace := []; p_crashed := Some TypeError |}.
Proof.
  intros H. unfold start, BBBApi.getJoinMeetingURL.
  destruct (JS.nullish (tenant ctx)) eqn:Ht.
  { rewrite (get_nullish _ _ Ht). reflexivity. }
  rewrite (get_member _ _ Ht), bind_ret.
  destruct (JS.nullish user) eqn:Hu.
  { rewrite (get_nullish _ _ Hu). reflexivity. }
  rewrite (get_member _ _ Hu), bind_ret.
  simpl in H. rewrite (get_nullish _ _ H). reflexivity.
Qed.

Section ActivationErrors.
Variables (t meetingProfile user : object).

Local Abbreviation firstModeratorPW := (Activation.firstModeratorPW t meetingProfile).
Local Abbreviation asked := (Activation.asked t meetingProfile user).
Local Abbreviation infoURL := (Activation.getMeetingInfoURL t meetingProfile).
Local Abbreviation createURL := (Activation.getCreateMeetingURL t meetingProfile).
Local Abbreviation joinURL := (Activation.joinURL t meetingProfile user).

(** X5: when the parse of the getMeetingInfo response fails, the caller's
    callback is invoked once, with that error alone; no create call is
    sent, no join URL is built and the passwords stay as first computed. *)
Theorem meetingInfo_error_reported (chunk : string) :
  JS.truthy (fst (parseString chunk)) = true ->
  let p := run asked [(0, ResponseData chunk)] in
  invocations (p_trace p) = [[fst (parseString chunk)]]
  /\ request_urls (p_trace p) = [infoURL]
  /\ p_crashed p = None
  /\ p_vars p = p_vars asked.
Proof.
  intros Herr p. unfold p. rewrite (start_getJoinMeetingURL t meetingProfile user).
  unfold run, deliver. cbn [fold_left fst snd p_crashed p_trace p_vars requests nth_error].
  cbn [BBBProxy.listeners].
  rewrite (onData_error _ _ _ Herr).
  unfold BBBApi.onMeetingInfo, arg. cbn [nth]. cbv zeta. rewrite Herr.
  repeat split.
Qed.

(** X6: when the getMeetingInfo request itself fails, the caller of
    [getJoinMeetingURL] hears nothing: the callback is not invoked and
    the error ends the process. *)
Theorem request_failure_unreported (e : value) :
  let p := run asked [(0, RequestError e)] in
  invocations (p_trace p) = []
  /\ request_urls (p_trace p) = [infoURL]
  /\ p_crashed p = Some (ErrorEvent e).
Proof.
  intros p. unfold p. rewrite (start_getJoinMeetingURL t meetingProfile user).
  repeat split.
Qed.

(** X7: when the meeting is not found and the parse of the create
    response fails, the caller's callback is invoked twice: first with
    null and the join URL, built with the first moderator password, then
    with the error. *)
Theorem create_error_reported_after_join (chunk chunk' : string) (meetingInfo : value) :
  answer chunk = Some meetingInfo ->
  Claimed.not_found meetingInfo = true ->
  JS.truthy (fst (parseString chunk')) = true ->
  let p := run asked [(0, ResponseData chunk); (1, ResponseData chunk')] in
  invocations (p_trace p)
  = [ [VNull; VObj [ ("url", joinURL (VStr firstModeratorPW)) ]];
      [fst (parseString chunk')] ]
  /\ request_urls (p_trace p) = [infoURL; createURL]
  /\ p_crashed p = None.
Proof.
  intros Hans Hnf Herr p.
  assert (Hp : p = deliver (run asked [(0, ResponseData chunk)]) 1 (ResponseData chunk'))
    by reflexivity.
  rewrite Hp, (run_meetingInfo t meetingProfile user _ _ Hans), Hnf.
  unfold deliver.
  cbn [fst snd p_crashed p_trace p_vars requests nth_error BBBProxy.listeners].
  rewrite (onData_error _ _ _ Herr).
  unfold BBBApi.onCreate, arg. cbn [nth]. cbv zeta. rewrite Herr.
  repeat split.
Qed.

End ActivationErrors.
End JoinErrorFacts.

Lemma join_needs_objects_witness :
  start (@BBBApi.getJoinMeetingURL Sample.runtime Sample.packages Sample.platform
           Sample.ctx (VObj Sample.meetingProfile) VUndefined) BBBApi.hoisted
  = {| p_vars := BBBApi.hoisted; p_trace := []; p_crashed := Some TypeError |}.
Proof.
  apply (@join_needs_objects Sample.runtime Sample.packages Sample.platform).
  reflexivity.
Defined.

Lemma meetingInfo_error_reported_witness :
  invocations
    (p_trace (run (Activation.asked (rt := Sample.runtime) (pk := Sample.packages)
                     (pf := Sample.platform)
                     [ ("alias", VStr "cam") ] Sample.meetingProfile Sample.user)
                  [(0, ResponseData "<response>")]))
  = [[Sample.parse_error]].
Proof.
  exact (proj1 (@meetingInfo_error_reported Sample.runtime Sample.packages Sample.platform
                  [ ("alias", VStr "cam") ] Sample.meetingProfile Sample.user
                  "<response>" eq_refl)).
Defined.

Lemma create_error_reported_after_join_witness :
  map (arg 0)
    (invocations
       (p_trace (run (Activation.asked (rt := Sample.runtime) (pk := Sample.packages)
                        (pf := Sample.platform)
                        [ ("alias", VStr "cam") ] Sample.meetingProfile Sample.user)
                     [ (0, ResponseData Sample.notFound_xml);
                       (1, ResponseData "<response>") ])))
  = [ VNull; Sample.parse_error ].
Proof.
  exact (f_equal (map (arg 0))
           (proj1 (@create_error_reported_after_join Sample.runtime Sample.packages
                     Sample.platform [ ("alias", VStr "cam") ] Sample.meetingProfile
                     Sample.user Sample.notFound_xml "<response>" _
                     eq_refl eq_refl eq_refl))).
Defined.

(** ** The search documents of a batch *)

Section BatchFacts.
Context {rt : Runtime} {pk : Packages} {pf : Platform}.

Lemma document_of_servable (meeting : value) :
  Observed.servable meeting = true ->
  exists doc : object,
    Search._produceMeetingSearchDocument meeting tt = ([], Returned (VObj doc, tt))
    /\ JS.prop doc "id" = JS.member meeting "id"
    /\ JS.keys doc
       = ([ "resourceType"; "id"; "tenantAlias"; "displayName"; "visibility";
            "q_high"; "q_low"; "sort"; "_extra" ]
          ++ (if JS.truthy (JS.member meeting "description")
              then [ "description" ] else []))%list.
Proof.
  unfold Observed.servable. rewrite andb_true_iff, !negb_true_iff. intros [Hm Ht].
  unfold Search._produceMeetingSearchDocument.
  rewrite !(get_member _ _ Hm). cbn. rewrite (get_member _ _ Ht). cbn.
  destruct (JS.truthy (JS.member meeting "description"));
    eexists; (split; [reflexivity|]); split; reflexivity.
Qed.

Lemma document_of_unservable (meeting : value) :
  Observed.servable meeting = false ->
  Search._produceMeetingSearchDocument meeting tt = ([], Thrown TypeError).
Proof.
  unfold Observed.servable. intros H.
  unfold Search._produceMeetingSearchDocument.
  destruct (JS.nullish meeting) eqn:Hm.
  - rewrite (get_nullish _ _ Hm). reflexivity.
  - rewrite !(get_member _ _ Hm). simpl in H. rewrite negb_false_iff in H.
    cbn. rewrite (get_nullish _ _ H). reflexivity.
Qed.

(** X8: [_produceMeetingSearchDocument] returns a document exactly when
    the meeting and its tenant are neither undefined nor null, and throws
    a TypeError otherwise; the document has the nine keys of the literal,
    in their order, and 'description' after them when the meeting's
    description is truthy. *)
Theorem document_iff_tenant (meeting : value) :
  (Observed.servable meeting = true ->
   exists doc : object,
     Search._produceMeetingSearchDocument meeting tt = ([], Returned (VObj doc, tt))
     /\ JS.keys doc
        = ([ "resourceType"; "id"; "tenantAlias"; "displayName"; "visibility";
             "q_high"; "q_low"; "sort"; "_extra" ]
           ++ (if JS.truthy (JS.member meeting "description")
               then [ "description" ] else []))%list)
  /\ (Observed.servable meeting = false ->
      Search._produceMeetingSearchDocument meeting tt = ([], Thrown TypeError)).
Proof.
  split.
  - intros Hs. destruct (document_of_servable meeting Hs) as (doc & Hrun & _ & Hkeys).
    now exists doc.
  - apply document_of_unservable.
Qed.

Lemma map_servable (meetings : list value) :
  forallb Observed.servable meetings = true ->
  exists docs : list value,
    Eff.map meetings Search._produceMeetingSearchDocument tt = ([], Returned (docs, tt))
    /\ map (fun d => JS.member d "id") docs = map (fun m => JS.member m "id") meetings.
Proof.
  induction meetings as [|m meetings IH]; simpl.
  - intros _. exists []. split; reflexivity.
  - rewrite andb_true_iff. intros [Hm Hrest].
    destruct (document_of_servable m Hm) as (doc & Hdoc & Hid & _).
    destruct (IH Hrest) as (docs & Hdocs & Hids).
    exists (VObj doc :: docs). split.
    + unfold Eff.bind. rewrite Hdoc, Hdocs. reflexivity.
    + simpl. now rewrite Hid, Hids.
Qed.

Lemma map_unservable (meetings : list value) :
  forallb Observed.servable meetings = false ->
  Eff.map meetings Search._produceMeetingSearchDocument tt = ([], Thrown TypeError).
Proof.
  induction meetings as [|m meetings IH]; simpl; [discriminate|].
  destruct (Observed.servable m) eqn:Hm; simpl.
  - intros Hrest. destruct (document_of_servable m Hm) as (doc & Hdoc & _).
    unfold Eff.bind. rewrite Hdoc, (IH Hrest). reflexivity.
  - intros _. unfold Eff.bind. rewrite (document_of_unservable m Hm). reflexivity.
Qed.

(** X9: when the DAO answers without error and every meeting that is
    left after the falsy entries are dropped has a tenant, the callback is
    invoked once: without arguments when none is left, otherwise with
    null and one document for each meeting left, in their order and with
    their ids. *)
Theorem surviving_meetings_documented (meetings : list value) :
  forallb Observed.servable (JS.compact meetings) = true ->
  exists docs : list value,
    Search.onMeetings [VNull; VArr meetings] tt
    = ([Callback (if JS.isEmpty (JS.compact meetings) then []
                  else [VNull; VArr docs])],
       Returned (tt, tt))
    /\ map (fun d => JS.member d "id") docs
       = map (fun m => JS.member m "id") (JS.compact meetings).
Proof.
  intros Hs. destruct (map_servable _ Hs) as (docs & Hdocs & Hids).
  exists docs. split; [|exact Hids].
  unfold Search.onMeetings, arg. cbn [nth JS.truthy JS.elements]. cbv zeta.
  destruct (JS.compact meetings) as [|m kept] eqn:Hkept; [reflexivity|].
  cbn [JS.isEmpty]. unfold Eff.bind. rewrite Hdocs. reflexivity.
Qed.

(** X10: when one of the meetings left after the falsy entries are
    dropped has no tenant, the continuation throws a TypeError and the
    callback is not invoked, not even for the other meetings of the
    batch. *)
Theorem batch_lost_without_tenant (meetings : list value) :
  forallb Observed.servable (JS.compact meetings) = false ->
  Search.onMeetings [VNull; VArr meetings] tt = ([], Thrown TypeError).
Proof.
  intros Hs.
  unfold Search.onMeetings, arg. cbn [nth JS.truthy JS.elements]. cbv zeta.
  destruct (JS.compact meetings) as [|m kept] eqn:Hkept; [discriminate|].
  cbn [JS.isEmpty]. unfold Eff.bind. rewrite (map_unservable _ Hs). reflexivity.
Qed.

(** X11: for resources without embedded meeting, not all absent,
    [_produceMeetingSearchDocuments] hands the ids to the DAO, and when
    the DAO then reports an error the callback is invoked once with an
    array holding that error alone, whatever meetings come with it. *)
Theorem dao_error_wrapped (resources : list object) (err meetings : value) :
  existsb Claimed.has_meeting resources = false ->
  resources <> [] ->
  JS.truthy err = true ->
  exists continuation : list value -> M call unit unit,
    Search._produceMeetingSearchDocuments (map VObj resources) tt
    = ([GetMeetingsById (VArr (map (fun r => JS.prop r "id") resources)) VNull
          continuation],
       Returned (tt, tt))
    /\ continuation [err; meetings] tt = ([Callback [VArr [err]]], Returned (tt, tt)).
Proof.
  intros Hnone Hne Herr. exists Search.onMeetings. split.
  - unfold Search._produceMeetingSearchDocuments, Search._getMeetings. cbv zeta.
    unfold Eff.bind at 1. rewrite each_sort_resource, Hnone. simpl app.
    destruct resources as [|r l]; [contradiction | reflexivity].
  - unfold Search.onMeetings, arg. cbn [nth]. cbv zeta. rewrite Herr. reflexivity.
Qed.

Lemma gather_quiet (acc : value * value) (resource : object) :
  Observed.reports_error resource = false ->
  snd (Claimed.gather acc resource) = snd acc.
Proof.
  unfold Observed.reports_error, Claimed.gather.
  destruct (JS.truthy (JS.prop resource "messages")); simpl; [reflexivity|].
  destruct (createAllMessageSearchDocuments _ _ _) as [err documents]. simpl.
  now intros ->.
Qed.

Lemma gather_all_quiet (resources : list object) :
  (forall r, In r resources -> Observed.reports_error r = false) ->
  forall acc : value * value,
  snd (fold_left Claimed.gather resources acc) = snd acc.
Proof.
  induction resources as [|r l IH]; intros Hq acc; [reflexivity|].
  simpl. rewrite IH by (intros r' Hr'; apply Hq; now right).
  apply gather_quiet, Hq. now left.
Qed.

(** X12: when reading the message box reports no error for any resource
    that needs it, the producer registered by [init] calls back with
    undefined in the place of the errors. *)
Theorem quiet_run_reports_no_error (resources : list object) :
  existsb Observed.reports_error resources = false ->
  exists docs : value,
    callbacks (trace_of (SearchEvents.messageDocumentProducer (map VObj resources) tt))
    = [[VUndefined; docs]].
Proof.
  intros Hq. eexists. unfold SearchEvents.messageDocumentProducer.
  rewrite produce_run. unfold trace_of. cbn [fst].
  rewrite callbacks_after_calls. cbn [callbacks].
  rewrite gather_all_quiet; [reflexivity|].
  intros r Hr. apply in_rev in Hr.
  destruct (Observed.reports_error r) eqn:Hrep; [|reflexivity].
  assert (Hex : existsb Observed.reports_error resources = true)
    by (apply existsb_exists; now exists r).
  congruence.
Qed.

End BatchFacts.

Lemma document_iff_tenant_witness :
  (exists doc : object,
     Search._produceMeetingSearchDocument (rt := Sample.runtime) (VObj Sample.meeting) tt
     = ([], Returned (VObj doc, tt))
     /\ List.length (JS.keys doc) = 10)
  /\ Search._produceMeetingSearchDocument (rt := Sample.runtime)
       (VObj [ ("id", VStr "m:cam:x2") ]) tt
     = ([], Thrown TypeError).
Proof.
  split.
  - destruct (proj1 (document_iff_tenant (rt := Sample.runtime) (VObj Sample.meeting))
                eq_refl) as (doc & Hrun & Hkeys).
    exists doc. split; [exact Hrun|]. now rewrite Hkeys.
  - exact (proj2 (document_iff_tenant (rt := Sample.runtime)
                    (VObj [ ("id", VStr "m:cam:x2") ])) eq_refl).
Defined.

Lemma surviving_meetings_documented_witness :
  exists docs : list value,
    Search.onMeetings (rt := Sample.runtime) [VNull; VArr [VNull; VObj Sample.meeting]] tt
    = ([Callback [VNull; VArr docs]], Returned (tt, tt))
    /\ map (fun d => JS.member d "id") docs = [VStr "m:cam:x1"].
Proof.
  exact (surviving_meetings_documented (rt := Sample.runtime)
           [VNull; VObj Sample.meeting] eq_refl).
Defined.

Lemma batch_lost_without_tenant_witness :
  Search.onMeetings (rt := Sample.runtime)
    [VNull; VArr [VObj Sample.meeting; VObj [ ("id", VStr "m:cam:x2") ]]] tt
  = ([], Thrown TypeError).
Proof.
  exact (batch_lost_without_tenant (rt := Sample.runtime)
           [VObj Sample.meeting; VObj [ ("id", VStr "m:cam:x2") ]] eq_refl).
Defined.

Lemma dao_error_wrapped_witness :
  exists continuation : list value -> M call unit unit,
    Search._produceMeetingSearchDocuments (rt := Sample.runtime)
      [VObj [ ("id", VStr "m:cam:x1") ]] tt
    = ([GetMeetingsById (VArr [VStr "m:cam:x1"]) VNull continuation], Returned (tt, tt))
    /\ continuation [VObj [ ("code", VNum 500%float) ]; VUndefined] tt
       = ([Callback [VArr [VObj [ ("code", VNum 500%float) ]]]], Returned (tt, tt)).
Proof.
  apply (dao_error_wrapped (rt := Sample.runtime) [ [ ("id", VStr "m:cam:x1") ] ]
           (VObj [ ("code", VNum 500%float) ]) VUndefined).
  - reflexivity.
  - discriminate.
  - reflexivity.
Defined.

Lemma quiet_run_reports_no_error_witness :
  exists docs : value,
    callbacks
      (trace_of
         (SearchEvents.messageDocumentProducer (pk := Sample.packages)
            (pf := Sample.platform)
            [ VObj [ ("id", VStr "m1"); ("messages", VArr [VStr "hi"]) ];
              VObj [ ("id", VStr "m2") ] ] tt))
    = [[VUndefined; docs]].
Proof.
  exact (quiet_run_reports_no_error (pk := Sample.packages) (pf := Sample.platform)
           [ [ ("id", VStr "m1"); ("messages", VArr [VStr "hi"]) ];
             [ ("id", VStr "m2") ] ] eq_refl).
Defined.

(** ** The tasks this file posts, taken up by its producers *)

Section TaskFacts.
Context {rt : Runtime} {pk : Packages} {pf : Platform}.

Lemma documents_of_plain (resources : list object) :
  existsb Claimed.has_meeting resources = false ->
  Search._produceMeetingSearchDocuments (map VObj resources) tt
  = if JS.isEmpty resources then ([Callback []], Returned (tt, tt))
    else ([GetMeetingsById (VArr (map (fun r => JS.prop r "id") resources)) VNull
             Search.onMeetings],
          Returned (tt, tt)).
Proof.
  intros Hnone.
  unfold Search._produceMeetingSearchDocuments, Search._getMeetings. cbv zeta.
  unfold Eff.bind at 1. rewrite each_sort_resource, Hnone. simpl app.
  destruct resources as [|r l]; reflexivity.
Qed.

(** X13: every index task posted by a listener of this file carries one
    resource, the id of the meeting and no embedded meeting, so
    [_produceMeetingSearchDocuments] takes it to the DAO with that id and
    does not throw; a listener posts one such task, none when it handles
    a deletion or when its meeting is undefined or null. *)
Theorem own_tasks_reach_the_dao (ev : event) (args : list value) :
  let tasks := Observed.index_tasks (trace_of (SearchEvents.listener ev args tt)) in
  List.length tasks
  = (if JS.nullish (Observed.meeting_of ev args) then 0
     else if Observed.posts_index ev then 1 else 0)
  /\ Forall
       (fun resources : list value =>
          Search._produceMeetingSearchDocuments resources tt
          = ([GetMeetingsById (VArr [JS.member (Observed.meeting_of ev args) "id"]) VNull
                Search.onMeetings],
             Returned (tt, tt)))
       tasks.
Proof.
  assert (Hone : forall o : object,
            Claimed.has_meeting o = false ->
            Search._produceMeetingSearchDocuments [VObj o] tt
            = ([GetMeetingsById (VArr [JS.prop o "id"]) VNull Search.onMeetings],
               Returned (tt, tt))).
  { intros o Ho. apply (documents_of_plain [o]). simpl. now rewrite Ho. }
  destruct ev; cbn [SearchEvents.listener Observed.meeting_of Observed.posts_index];
    unfold SearchEvents.onCreatedMeeting, SearchEvents.onUpdatedMeeting,
      SearchEvents.onUpdatedMeetingMembers, SearchEvents.onDeletedMeeting,
      SearchEvents.onCreatedMeetingMessage, SearchEvents.onDeletedMeetingMessage;
    cbv zeta;
    match goal with |- context [Eff.get ?m "id"] => destruct (JS.nullish m) eqn:Hm end;
    try rewrite (get_nullish _ _ Hm); try rewrite (get_member _ _ Hm); cbn;
    (split; [reflexivity|]); repeat constructor; apply (Hone _ eq_refl).
Qed.

(** X14: the task posted when a message is created carries that message,
    so the producer registered by [init] makes the documents of that one
    message from the meeting's id and does not read the message box. *)
Theorem message_task_indexes_its_message (ctx message meeting : value) :
  JS.nullish meeting = false ->
  exists resources : list value,
    Observed.index_tasks
      (trace_of (SearchEvents.listener CREATED_MEETING_MESSAGE [ctx; message; meeting] tt))
    = [resources]
    /\ trace_of (SearchEvents.messageDocumentProducer resources tt)
       = [ CreateMessageSearchDocuments MAPPING_MEETING_MESSAGE
             (JS.member meeting "id") (VArr [message]);
           Callback
             [ VUndefined;
               JS.or (underscore_union (VArr [])
                        (createMessageSearchDocuments MAPPING_MEETING_MESSAGE
                           (JS.member meeting "id") (VArr [message])))
                     (VArr []) ] ].
Proof.
  intros Hm. eexists. split.
  - cbn [SearchEvents.listener]. unfold SearchEvents.onCreatedMeetingMessage, arg.
    cbn [nth]. cbv zeta. rewrite (get_member _ _ Hm). reflexivity.
  - unfold SearchEvents.messageDocumentProducer.
    rewrite (produce_run [ [ ("id", JS.member meeting "id"); ("messages", VArr [message]) ] ]).
    reflexivity.
Qed.

Lemma each_batch_row (rows : list value) :
  forall (acc : list value) (u : unit),
  Eff.each rows SearchEvents.batch_row acc u
  = if forallb (fun r => negb (JS.nullish r)) rows
    then ([], Returned ((acc ++ map (fun r => VObj [ ("id", JS.member r "id") ]) rows)%list, u))
    else ([], Thrown TypeError).
Proof.
  induction rows as [|r rows IH]; intros acc u.
  - simpl. unfold Eff.ret. now rewrite app_nil_r.
  - simpl. unfold Eff.bind at 1. unfold SearchEvents.batch_row at 1.
    destruct (JS.nullish r) eqn:Hr.
    + rewrite (get_nullish _ _ Hr). reflexivity.
    + rewrite (get_member _ _ Hr). cbn. rewrite IH, <- app_assoc.
      now destruct (forallb _ rows).
Qed.

Lemma onEach_run (rows : list value) :
  SearchEvents._onEach rows tt
  = if forallb (fun r => negb (JS.nullish r)) rows
    then ([ LogInfo "Firing re-indexing task for %s meetings." (List.length rows);
            PostIndexTask (VStr "meeting")
              (VArr (map (fun r => VObj [ ("id", JS.member r "id") ]) rows))
              (VObj [ ("resource", VBool true); ("children", VBool true) ]);
            Done ],
          Returned (tt, tt))
    else ([], Thrown TypeError).
Proof.
  unfold SearchEvents._onEach. unfold Eff.bind at 1. rewrite each_batch_row.
  destruct (forallb _ rows); [|reflexivity].
  cbn. now rewrite length_map.
Qed.

(** X15: for a batch in which no row is undefined or null, the
    reindex-all handler logs the size of the batch, posts exactly one
    index task, for the resources {id} of the rows in their order with the
    flags resource and children, and then reports that it is done; with an
    undefined or null row it throws a TypeError and posts no task.  The
    posted task is taken up by the two producers: the document producer
    hands the ids of the rows, in their order, to the DAO (and calls back
    without arguments on an empty batch), and the message producer reads
    the whole message box of every row, from the last to the first, and
    calls back once. *)
Theorem reindex_batch_taken_up (rows : list value) :
  let ids := map (fun r => JS.member r "id") rows in
  let resources := map (fun r => VObj [ ("id", JS.member r "id") ]) rows in
  let good := forallb (fun r => negb (JS.nullish r)) rows in
  SearchEvents._onEach rows tt
  = (if good
     then ([ LogInfo "Firing re-indexing task for %s meetings." (List.length rows);
             PostIndexTask (VStr "meeting") (VArr resources)
               (VObj [ ("resource", VBool true); ("children", VBool true) ]);
             Done ],
           Returned (tt, tt))
     else ([], Thrown TypeError))
  /\ Observed.index_tasks (trace_of (SearchEvents._onEach rows tt))
     = (if good then [resources] else [])
  /\ Search._produceMeetingSearchDocuments resources tt
     = (if JS.isEmpty rows then ([Callback []], Returned (tt, tt))
        else ([GetMeetingsById (VArr ids) VNull Search.onMeetings], Returned (tt, tt)))
  /\ exists errs docs : value,
       trace_of (SearchEvents.messageDocumentProducer resources tt)
       = (map (fun id => CreateAllMessageSearchDocuments MAPPING_MEETING_MESSAGE id id)
              (rev ids)
          ++ [Callback [errs; docs]])%list.
Proof.
  intros ids resources good. unfold good. rewrite onEach_run.
  split; [reflexivity|]. split.
  { destruct (forallb _ rows); reflexivity. }
  set (objs := map (fun r => [ ("id", JS.member r "id") ]) rows).
  assert (Hmap : resources = map VObj objs)
    by (unfold resources, objs; now rewrite map_map).
  rewrite Hmap. split.
  - rewrite documents_of_plain.
    + unfold objs, ids. rewrite map_map. cbn [JS.prop String.eqb Ascii.eqb Bool.eqb].
      destruct rows; reflexivity.
    + unfold objs. clear. induction rows as [|r rows IH]; [reflexivity|].
      simpl. exact IH.
  - unfold SearchEvents.messageDocumentProducer. rewrite produce_run.
    do 2 eexists. unfold trace_of. cbn [fst]. f_equal.
    unfold objs, ids. rewrite <- !map_rev, !map_map. reflexivity.
Qed.

End TaskFacts.

Lemma message_task_indexes_its_message_witness :
  exists resources : list value,
    Observed.index_tasks
      (trace_of (SearchEvents.listener (pf := Sample.platform) CREATED_MEETING_MESSAGE
                   [VNull; VStr "hi"; VObj Sample.meeting] tt))
    = [resources]
    /\ trace_of (SearchEvents.messageDocumentProducer (pk := Sample.packages)
                   (pf := Sample.platform) resources tt)
       = [ CreateMessageSearchDocuments (VStr "meeting_message") (VStr "m:cam:x1")
             (VArr [VStr "hi"]);
           Callback [ VUndefined;
                      VArr [ VObj [ ("id", VStr "m:cam:x1"); ("body", VStr "hi") ] ] ] ].
Proof.
  exact (message_task_indexes_its_message (pk := Sample.packages) (pf := Sample.platform)
           VNull (VStr "hi") (VObj Sample.meeting) eq_refl).
Defined.

(** A batch of two rows. *)
Example reindex_batch_example :
  trace_of (SearchEvents._onEach
              [ VObj [ ("id", VStr "m1") ]; VObj [ ("id", VStr "m2") ] ] tt)
  = [ LogInfo "Firing re-indexing task for %s meetings." 2;
      PostIndexTask (VStr "meeting")
        (VArr [ VObj [ ("id", VStr "m1") ]; VObj [ ("id", VStr "m2") ] ])
        (VObj [ ("resource", VBool true); ("children", VBool true) ]);
      Done ].
Proof. reflexivity. Qed.
